(** * NeuralHealth: term extraction, summary composition and the
      account / analysis-record store of [medical.py] and [medical3.py]

    The Python functions are embedded as Rocq functions.  Strings are
    [string] (the ASCII fragment of Python's [str]: characters above 127
    are neither cased nor white space), SQLite tables are lists of row
    records in insertion order, [datetime.now()] is an explicit argument,
    and raised exceptions are values of the [res] type.

    [medical3.py] defines [get_user_history] and [save_analysis] twice.  Of
    [get_user_history] the definition bound last (lines 481-492, four
    columns) is embedded, as the one every caller reaches; both definitions
    of [save_analysis] are embedded, lines 189-199 as [save_analysis] and
    lines 470-479 as [save_analysis_nostatus]. *)

From Stdlib Require Import List String Ascii Bool Arith PeanoNat Lia.
From Stdlib Require Import Permutation Sorted.
Import ListNotations.
Open Scope string_scope.
Open Scope list_scope.
Open Scope nat_scope.

(* ===================================================================== *)
(** * Part I: definitions                                                  *)
(* ===================================================================== *)

(** ** Exceptions *)

Module Py.

Inductive exn : Type :=
| IndexError
| ValueError
| AttributeError.

Inductive res (A : Type) : Type :=
| Val (a : A)
| Raise (e : exn).

Arguments Val {A} a.
Arguments Raise {A} e.

Definition bind {A B : Type} (c : res A) (k : A -> res B) : res B :=
  match c with
  | Val a => k a
  | Raise e => Raise e
  end.

Definition returns {A : Type} (c : res A) : bool :=
  match c with
  | Val _ => true
  | Raise _ => false
  end.

End Py.

Import Py.

Notation "x <- c ;; k" := (Py.bind c (fun x => k))
  (at level 61, c at next level, right associativity).

(** ** The [str] methods the program calls *)

Module PyStr.

Definition in_range (lo hi : nat) (c : ascii) : bool :=
  (lo <=? nat_of_ascii c) && (nat_of_ascii c <=? hi).

(** White space of [str.split()]: TAB..CR, FS..US and SPACE. *)
Definition char_isspace (c : ascii) : bool :=
  in_range 9 13 c || in_range 28 32 c.

Definition char_isupper (c : ascii) : bool := in_range 65 90 c.

Definition char_islower (c : ascii) : bool := in_range 97 122 c.

Definition char_lower (c : ascii) : ascii :=
  if char_isupper c then ascii_of_nat (nat_of_ascii c + 32) else c.

Fixpoint any_char (p : ascii -> bool) (s : string) : bool :=
  match s with
  | EmptyString => false
  | String c s' => p c || any_char p s'
  end.

(** [s.isupper()]: no lower-case character and at least one cased
    character. *)
Definition isupper (s : string) : bool :=
  negb (any_char char_islower s) && any_char char_isupper s.

(** [s.lower()]. *)
Fixpoint lower (s : string) : string :=
  match s with
  | EmptyString => EmptyString
  | String c s' => String (char_lower c) (lower s')
  end.

(** [s.split()]: the maximal runs of characters that are not white space.
    [word] is the run being read. *)
Fixpoint split_from (word : string) (s : string) : list string :=
  match s with
  | EmptyString => if (word =? "")%string then [] else [word]
  | String c s' =>
      if char_isspace c
      then (if (word =? "")%string then split_from "" s' else word :: split_from "" s')
      else split_from (word ++ String c "") s'
  end.

Definition split (s : string) : list string := split_from "" s.

(** [s[i]]: a one-character string, or [IndexError]. *)
Definition getitem (s : string) (i : nat) : res string :=
  match String.get i s with
  | Some c => Val (String c "")
  | None => Raise IndexError
  end.

(** [x in xs] for a list of strings. *)
Definition contains (xs : list string) (x : string) : bool :=
  existsb (String.eqb x) xs.

(** [sep.join(xs)]. *)
Definition join (sep : string) (xs : list string) : string :=
  String.concat sep xs.

(** [list(dict.fromkeys(xs))]: the keys of a dict in insertion order; a key
    already present keeps its place. *)
Definition fromkeys (xs : list string) : list string :=
  fold_left (fun d k => if contains d k then d else d ++ [k]) xs [].

End PyStr.

Import PyStr.

(** ** [extract_medical_keywords] and [generate_summary] *)

Module Extractor.

(** A spaCy span: an entity of [doc.ents] or a chunk of [doc.noun_chunks].
    [tokens] holds the [token.text] of its tokens. *)
Record Span : Type := mkSpan {
  text : string;
  label_ : string;
  tokens : list string
}.

Record Doc : Type := mkDoc {
  ents : list Span;
  noun_chunks : list Span
}.

Definition symptom_words : list string :=
  ["pain"; "ache"; "discomfort"; "swelling"; "fever";
   "infection"; "inflammation"; "disease"; "syndrome";
   "condition"; "symptom"; "treatment"].

(** The condition of the first loop, with Python's left-to-right
    short-circuit evaluation of [or] and [and]. *)
Definition entity_test (ent : Span) : res bool :=
  if contains ["ORG"; "GPE"] (label_ ent)
     && existsb isupper (split (text ent))
  then Val true
  else if (label_ ent =? "CONDITION")%string then Val true
  else if (List.length (split (text ent)) <=? 3)
  then c <- getitem (text ent) 0 ;; Val (isupper c)
  else Val false.

Fixpoint for_ents (es : list Span) (medical_entities : list string)
  : res (list string) :=
  match es with
  | [] => Val medical_entities
  | ent :: es' =>
      b <- entity_test ent ;;
      for_ents es' (if b then medical_entities ++ [text ent]
                    else medical_entities)
  end.

Definition chunk_test (chunk : Span) : bool :=
  existsb (fun token => contains symptom_words (lower token)) (tokens chunk).

Fixpoint for_chunks (cs : list Span) (medical_entities : list string)
  : list string :=
  match cs with
  | [] => medical_entities
  | chunk :: cs' =>
      for_chunks cs' (if chunk_test chunk then medical_entities ++ [text chunk]
                      else medical_entities)
  end.

Section WithAnalyzer.

(** The linguistic analyzer [nlp] is an external collaborator. *)
Variable nlp : string -> Doc.

Definition extract_medical_keywords (input : string) : res (list string) :=
  let doc := nlp input in
  medical_entities <- for_ents (ents doc) [] ;;
  Val (fromkeys (for_chunks (noun_chunks doc) medical_entities)).

End WithAnalyzer.

Definition generate_summary (keywords : list string) : string :=
  match keywords with
  | [] => "No specific medical terms were identified in the input."
  | _ :: _ =>
      "Based on the analysis, the key medical conditions and symptoms include: "
      ++ join ", " keywords ++ "."
  end.

(** A term without a comma. *)
Definition comma_free (s : string) : bool :=
  negb (any_char (Ascii.eqb ",") s).

(** *** The extraction rules as the specification words them *)

Definition first_char_upper (s : string) : bool :=
  match s with
  | EmptyString => false
  | String c _ => char_isupper c
  end.

Definition caseless_eq (a b : string) : bool := (lower a =? lower b)%string.

Definition keeps_entity (ent : Span) : bool :=
  (contains ["ORG"; "GPE"] (label_ ent)
   && existsb isupper (split (text ent)))
  || (label_ ent =? "CONDITION")%string
  || ((List.length (split (text ent)) <=? 3) && first_char_upper (text ent)).

Definition keeps_phrase (chunk : Span) : bool :=
  existsb (fun token => existsb (caseless_eq token) symptom_words)
          (tokens chunk).

(** Keep the first occurrence of every term. *)
Fixpoint first_occurrences (xs : list string) : list string :=
  match xs with
  | [] => []
  | x :: xs' => x :: filter (fun y => negb (y =? x)%string) (first_occurrences xs')
  end.

Definition extract_spec (doc : Doc) : list string :=
  first_occurrences
    (map text (filter keeps_entity (ents doc))
     ++ map text (filter keeps_phrase (noun_chunks doc))).

(** An entity on which the first-character test is evaluated and fails:
    empty text under a label other than CONDITION. *)
Definition hits_index_error (ent : Span) : bool :=
  (text ent =? "")%string && negb (label_ ent =? "CONDITION")%string.

(** Concrete analyzer outputs. *)
Definition doc_sample : Doc :=
  mkDoc [ mkSpan "WHO" "ORG" ["WHO"];
          mkSpan "chronic fever" "CONDITION" ["chronic"; "fever"];
          mkSpan "last week" "DATE" ["last"; "week"];
          mkSpan "Paris" "GPE" ["Paris"] ]
        [ mkSpan "chronic fever" "" ["chronic"; "fever"];
          mkSpan "the Pain" "" ["the"; "Pain"];
          mkSpan "a walk" "" ["a"; "walk"] ].

Definition doc_empty_condition : Doc :=
  mkDoc [ mkSpan "" "CONDITION" [] ] [].

Definition doc_empty_org : Doc :=
  mkDoc [ mkSpan "" "ORG" [] ] [].

End Extractor.

(** ** The SQLite store of [medical3.py] *)

Module Store.

Definition time : Type := nat.

(** Rows of the four tables, one field per column. *)
Record users_row : Type := mkUser {
  users_id : nat;
  users_username : string;
  users_password : string;
  users_role : string
}.

Record doctors_row : Type := mkDoctor {
  doctors_id : nat;
  doctors_user_id : nat;
  doctors_full_name : string;
  doctors_specialization : string
}.

Record doctor_patient_row : Type := mkAssignment {
  dp_doctor_id : nat;
  dp_patient_id : nat;
  dp_assignment_date : time
}.

Record analysis_row : Type := mkAnalysis {
  ah_id : nat;
  ah_user_id : nat;
  ah_analysis_date : time;
  ah_medical_terms : string;
  ah_summary : string;
  ah_recommendations : string;
  ah_doctor_id : option nat;
  ah_status : option string;
  ah_doctor_notes : option string;
  ah_last_modified : option time
}.

(** The database file.  The [_seq] fields are the AUTOINCREMENT counters
    (the largest row id handed out so far). *)
Record DB : Type := mkDB {
  users : list users_row;
  users_seq : nat;
  doctors : list doctors_row;
  doctors_seq : nat;
  doctor_patient : list doctor_patient_row;
  analysis_history : list analysis_row;
  analysis_seq : nat
}.

Definition empty_db : DB := mkDB [] 0 [] 0 [] [] 0.

(** AUTOINCREMENT: one more than every id in the table and than the
    counter. *)
Definition fresh_id (ids : list nat) (seq : nat) : nat :=
  S (Nat.max seq (list_max ids)).

(** [INSERT INTO users]: [None] is [sqlite3.IntegrityError], raised when the
    UNIQUE constraint on [username] is violated. *)
Definition insert_user (db : DB) (username password role : string)
  : option (nat * DB) :=
  if existsb (fun r => (users_username r =? username)%string) (users db)
  then None
  else
    let id := fresh_id (map users_id (users db)) (users_seq db) in
    Some (id,
          mkDB (users db ++ [mkUser id username password role]) id
               (doctors db) (doctors_seq db) (doctor_patient db)
               (analysis_history db) (analysis_seq db)).

(** [INSERT INTO doctors]: UNIQUE constraint on [user_id]. *)
Definition insert_doctor (db : DB) (user_id : nat)
  (full_name specialization : string) : option DB :=
  if existsb (fun r => doctors_user_id r =? user_id) (doctors db)
  then None
  else
    let id := fresh_id (map doctors_id (doctors db)) (doctors_seq db) in
    Some (mkDB (users db) (users_seq db)
               (doctors db ++ [mkDoctor id user_id full_name specialization]) id
               (doctor_patient db) (analysis_history db) (analysis_seq db)).

(** [INSERT INTO doctor_patient]: PRIMARY KEY (doctor_id, patient_id). *)
Definition insert_doctor_patient (db : DB) (doctor_id patient_id : nat)
  (date : time) : option DB :=
  if existsb (fun r => (dp_doctor_id r =? doctor_id)
                       && (dp_patient_id r =? patient_id)) (doctor_patient db)
  then None
  else
    Some (mkDB (users db) (users_seq db) (doctors db) (doctors_seq db)
               (doctor_patient db ++ [mkAssignment doctor_id patient_id date])
               (analysis_history db) (analysis_seq db)).

(** [INSERT INTO analysis_history]: [status] is the value the new row gets
    in the status column, [None] when it gets none. *)
Definition insert_analysis (db : DB) (user_id : nat) (date : time)
  (medical_terms summary recommendations : string) (status : option string)
  : DB :=
  let id := fresh_id (map ah_id (analysis_history db)) (analysis_seq db) in
  mkDB (users db) (users_seq db) (doctors db) (doctors_seq db)
       (doctor_patient db)
       (analysis_history db
        ++ [mkAnalysis id user_id date medical_terms summary recommendations
                       None status None None])
       id.

Definition set_analysis_history (db : DB) (rows : list analysis_row) : DB :=
  mkDB (users db) (users_seq db) (doctors db) (doctors_seq db)
       (doctor_patient db) rows (analysis_seq db).

(** [ORDER BY analysis_date DESC]: rows with equal dates keep table order. *)
Fixpoint insert_desc (r : analysis_row) (l : list analysis_row)
  : list analysis_row :=
  match l with
  | [] => [r]
  | x :: l' =>
      if ah_analysis_date x <=? ah_analysis_date r
      then r :: x :: l'
      else x :: insert_desc r l'
  end.

Fixpoint order_by_date_desc (l : list analysis_row) : list analysis_row :=
  match l with
  | [] => []
  | r :: l' => insert_desc r (order_by_date_desc l')
  end.

(** [... FROM analysis_history WHERE user_id = ? ORDER BY analysis_date DESC]. *)
Definition select_history (db : DB) (user_id : nat) : list analysis_row :=
  order_by_date_desc
    (filter (fun r => ah_user_id r =? user_id) (analysis_history db)).

(** The four-column query of lines 481-492. *)
Definition history4_of (r : analysis_row) : time * string * string * string :=
  (ah_analysis_date r, ah_medical_terms r, ah_summary r, ah_recommendations r).

Definition get_user_history_4 (db : DB) (user_id : nat)
  : list (time * string * string * string) :=
  map history4_of (select_history db user_id).

Definition date4 (h : time * string * string * string) : time :=
  fst (fst (fst h)).

(** A column value of a fetched row. *)
Inductive value : Type :=
| VNull
| VInt (n : nat)
| VText (s : string)
| VDate (t : time).

(** A row of that query as the tuple [fetchall] hands to the callers. *)
Definition tuple_of (h : time * string * string * string) : list value :=
  [VDate (fst (fst (fst h))); VText (snd (fst (fst h)));
   VText (snd (fst h)); VText (snd h)].

(** [get_user_history] as the pages call it: the definition of lines
    481-492 is the one in force, the name being bound there last. *)
Definition get_user_history (db : DB) (user_id : nat) : list (list value) :=
  map tuple_of (get_user_history_4 db user_id).

(** [t[i]] on a tuple. *)
Definition item (t : list value) (i : nat) : res value :=
  match nth_error t i with
  | Some v => Val v
  | None => Raise IndexError
  end.

(** Most recent first. *)
Definition newer_first (a b : analysis_row) : Prop :=
  ah_analysis_date b <= ah_analysis_date a.

(** The record an UPDATE of the review columns leaves behind. *)
Definition reviewed (r : analysis_row) (status doctor_notes : string)
  (now : time) : analysis_row :=
  mkAnalysis (ah_id r) (ah_user_id r) (ah_analysis_date r)
             (ah_medical_terms r) (ah_summary r) (ah_recommendations r)
             (ah_doctor_id r) (Some status) (Some doctor_notes) (Some now).

Definition find_analysis (db : DB) (analysis_id : nat) : option analysis_row :=
  find (fun r => ah_id r =? analysis_id) (analysis_history db).

(** [save_analysis], lines 189-199: the status is written as 'pending'. *)
Definition save_analysis (db : DB) (user_id : nat)
  (medical_terms summary recommendations : string) (now : time) : DB :=
  insert_analysis db user_id now medical_terms summary recommendations
                  (Some "pending").

(** [save_analysis], lines 470-479, the definition in force: the INSERT
    lists no status column, so the row gets what the table gives a row
    without one.  [column_default] is the DEFAULT of the status column,
    [None] for a column without default and for a table without the column
    (the table [init_db] creates, lines 223-233). *)
Definition save_analysis_nostatus (column_default : option string) (db : DB)
  (user_id : nat) (medical_terms summary recommendations : string)
  (now : time) : DB :=
  insert_analysis db user_id now medical_terms summary recommendations
                  column_default.

Definition create_doctor (db : DB) (user_id : nat)
  (full_name specialization : string) : bool * DB :=
  match insert_doctor db user_id full_name specialization with
  | Some db' => (true, db')
  | None => (false, db)
  end.

Definition assign_doctor (db : DB) (doctor_id patient_id : nat) (now : time)
  : bool * DB :=
  match insert_doctor_patient db doctor_id patient_id now with
  | Some db' => (true, db')
  | None => (false, db)
  end.

(** [SELECT u.id, u.username FROM users u JOIN doctor_patient dp
     ON u.id = dp.patient_id WHERE dp.doctor_id = ?]. *)
Definition get_doctor_patients (db : DB) (doctor_id : nat)
  : list (nat * string) :=
  flat_map
    (fun u =>
       map (fun _ => (users_id u, users_username u))
           (filter (fun dp => (users_id u =? dp_patient_id dp)
                              && (dp_doctor_id dp =? doctor_id))
                   (doctor_patient db)))
    (users db).

Definition get_doctor_id (db : DB) (user_id : nat) : option nat :=
  match find (fun r => doctors_user_id r =? user_id) (doctors db) with
  | Some r => Some (doctors_id r)
  | None => None
  end.

(** [UPDATE analysis_history SET status, doctor_notes, last_modified
     WHERE id = ?]. *)
Definition update_row (analysis_id : nat) (status doctor_notes : string)
  (now : time) (r : analysis_row) : analysis_row :=
  if ah_id r =? analysis_id
  then mkAnalysis (ah_id r) (ah_user_id r) (ah_analysis_date r)
                  (ah_medical_terms r) (ah_summary r) (ah_recommendations r)
                  (ah_doctor_id r) (Some status) (Some doctor_notes) (Some now)
  else r.

Definition update_analysis_status (db : DB) (analysis_id : nat)
  (status doctor_notes : string) (now : time) : DB :=
  set_analysis_history db
    (map (update_row analysis_id status doctor_notes now)
         (analysis_history db)).

(** The dict returned by [verify_user]. *)
Record user : Type := mkUserDict {
  id : nat;
  role : string
}.

Section WithHash.

(** [hash_password] (SHA-256, hex digest) is kept abstract. *)
Variable hash_password : string -> string.

Definition create_user (db : DB) (username password role : string)
  : option nat * DB :=
  match insert_user db username (hash_password password) role with
  | Some (lastrowid, db') => (Some lastrowid, db')
  | None => (None, db)
  end.

Definition verify_user (db : DB) (username password : string) : option user :=
  match find (fun r => (users_username r =? username)%string) (users db) with
  | Some result =>
      if (users_password result =? hash_password password)%string
      then Some (mkUserDict (users_id result) (users_role result))
      else None
  | None => None
  end.

End WithHash.

End Store.

(** ** Registration and the doctor's dashboard ([main], [doctor_interface]) *)

Module Workflow.

Import Store.

(** What the page reports through [st.error], [st.info], [st.success]. *)
Inductive st_msg : Type :=
| st_error (s : string)
| st_info (s : string)
| st_success (s : string).

(** The two options of the "Register as" select box. *)
Inductive reg_role : Type :=
| Patient
| Doctor.

Definition role_name (r : reg_role) : string :=
  match r with
  | Doctor => "doctor"
  | Patient => "patient"
  end.

(** Python truthiness of [user_id] / [doctor_id]: [None] and [0] are false. *)
Definition truthy (o : option nat) : bool :=
  match o with
  | Some (S _) => true
  | _ => false
  end.

Section WithHash.

Variable hash_password : string -> string.

(** The body of [if st.button("Register")], lines 436-453 of [main]. *)
Definition register (db : DB) (role : reg_role)
  (new_username new_password confirm_password : string)
  (full_name specialization : string) : st_msg * DB :=
  if negb (new_password =? confirm_password)%string
  then (st_error "Passwords do not match", db)
  else if String.length new_password <? 6
  then (st_error "Password must be at least 6 characters long", db)
  else
    let '(user_id, db1) :=
      create_user hash_password db new_username new_password (role_name role) in
    if truthy user_id
    then
      match role with
      | Doctor =>
          let '(created, db2) :=
            create_doctor db1 (match user_id with Some n => n | None => 0 end)
                          full_name specialization in
          if created
          then (st_success "Doctor registration successful! Please login.", db2)
          else (st_error "Error creating doctor profile", db2)
      | Patient =>
          (st_success "Patient registration successful! Please login.", db1)
      end
    else (st_error "Username already exists", db1).

End WithHash.

(** The three options of the "Status" select box. *)
Inductive review_status : Type :=
| pending
| approved
| disapproved.

Definition status_text (s : review_status) : string :=
  match s with
  | pending => "pending"
  | approved => "approved"
  | disapproved => "disapproved"
  end.

(** [["pending", "approved", "disapproved"].index(current_status)], which
    raises [ValueError] for any other value. *)
Definition status_index (current_status : value) : res review_status :=
  match current_status with
  | VText s =>
      if (s =? "pending")%string then Val pending
      else if (s =? "approved")%string then Val approved
      else if (s =? "disapproved")%string then Val disapproved
      else Raise ValueError
  | _ => Raise ValueError
  end.

(** The widget state of one run of the dashboard: the option picked in the
    patient select box, per analysis id the status picked and the notes typed
    ([None]: the widget still shows its initial value), and the "Update
    Review" button pressed in this run, if any. *)
Record Widgets : Type := mkWidgets {
  select_patient : nat;
  status_choice : nat -> option review_status;
  notes_text : nat -> option string;
  update_clicked : option nat
}.

Definition clicked (w : Widgets) (analysis_id : nat) : bool :=
  match update_clicked w with
  | Some i => i =? analysis_id
  | None => false
  end.

(** The analysis id in the widget keys [f"status_{analysis[5]}"],
    [f"notes_{analysis[5]}"] and [f"update_{analysis[5]}"]. *)
Definition key_id (key : value) : option nat :=
  match key with
  | VInt n => Some n
  | _ => None
  end.

(** [analysis[6] if analysis[6] else ""]; a value that is no text counts as
    empty. *)
Definition notes_value (n : value) : string :=
  match n with
  | VText s => s
  | _ => ""
  end.

(** The head of the loop body of [doctor_interface], lines 354-362: the
    expander title and the three sections read [analysis[0]] to
    [analysis[3]] and display them. *)
Definition display_record (analysis : list value) : res unit :=
  _ <- item analysis 0 ;;
  _ <- item analysis 1 ;;
  _ <- item analysis 2 ;;
  _ <- item analysis 3 ;;
  Val tt.

(** The body of the loop [for analysis in history] of [doctor_interface],
    lines 353-382.  The widgets of [Widgets] are keyed by analysis ids; a
    key value that is no integer names none of them. *)
Definition review_record (analysis : list value) (w : Widgets) (now : time)
  (db : DB) : res (list st_msg) * DB :=
  match display_record analysis with
  | Raise e => (Raise e, db)
  | Val _ =>
  match item analysis 4 with
  | Raise e => (Raise e, db)
  | Val current_status =>
  match status_index current_status with
  | Raise e => (Raise e, db)
  | Val current =>
  match item analysis 5 with
  | Raise e => (Raise e, db)
  | Val key =>
  match item analysis 6 with
  | Raise e => (Raise e, db)
  | Val notes =>
      match key_id key with
      | Some analysis_id =>
          let new_status :=
            match status_choice w analysis_id with
            | Some s => s
            | None => current
            end in
          let doctor_notes :=
            match notes_text w analysis_id with
            | Some s => s
            | None => notes_value notes
            end in
          if clicked w analysis_id
          then (Val [st_success "Review updated successfully"],
                update_analysis_status db analysis_id
                  (status_text new_status) doctor_notes now)
          else (Val [], db)
      | None => (Val [], db)
      end
  end
  end
  end
  end
  end.

(** The loop itself.  An exception leaves the updates committed before it
    in place. *)
Fixpoint review_loop (history : list (list value)) (w : Widgets) (now : time)
  (db : DB) : res (list st_msg) * DB :=
  match history with
  | [] => (Val [], db)
  | analysis :: rest =>
      match review_record analysis w now db with
      | (Raise e, db1) => (Raise e, db1)
      | (Val msgs, db1) =>
          match review_loop rest w now db1 with
          | (Val more, db2) => (Val (msgs ++ more), db2)
          | (Raise e, db2) => (Raise e, db2)
          end
      end
  end.

Definition doctor_interface (db : DB) (session_user_id : nat) (w : Widgets)
  (now : time) : res (list st_msg) * DB :=
  let doctor_id := get_doctor_id db session_user_id in
  if negb (truthy doctor_id)
  then (Val [st_error "Doctor account not properly configured"], db)
  else
    let patients :=
      get_doctor_patients db (match doctor_id with Some n => n | None => 0 end) in
    match patients with
    | [] => (Val [st_info "No patients assigned yet"], db)
    | first :: _ =>
        let selected_patient := nth (select_patient w) patients first in
        review_loop (get_user_history db (fst selected_patient)) w now db
    end.

(** Does the assignment table pair this doctor with this patient? *)
Definition assigned (db : DB) (doctor_id patient_id : nat) : bool :=
  existsb (fun dp => (dp_doctor_id dp =? doctor_id)
                     && (dp_patient_id dp =? patient_id))
          (doctor_patient db).

Definition has_profile (db : DB) (user_id : nat) : bool :=
  existsb (fun r => doctors_user_id r =? user_id) (doctors db).

(** Referential integrity of [doctors.user_id], which SQLite does not
    enforce by default. *)
Definition doctors_reference_users (db : DB) : Prop :=
  forall d, In d (doctors db) -> In (doctors_user_id d) (map users_id (users db)).

End Workflow.

(** ** Concrete stores *)

Module Samples.

Import Store Workflow.

(** A stand-in for the hash function in concrete runs. *)
Definition toy_hash (p : string) : string := "h:" ++ p.

(** alice (patient, id 1), drbob (doctor, user id 2, doctor id 1), one
    pending analysis of alice, and no assignment. *)
Definition db_unassigned : DB :=
  mkDB [ mkUser 1 "alice" (toy_hash "correct") "patient";
         mkUser 2 "drbob" (toy_hash "secret1") "doctor" ] 2
       [ mkDoctor 1 2 "Bob" "GP" ] 1
       []
       [ mkAnalysis 1 1 10 "fever" "s" "r" None (Some "pending") None None ] 1.

(** The same store after [assign_doctor 1 1]. *)
Definition db_assigned : DB :=
  snd (assign_doctor db_unassigned 1 1 11).

(** A store whose [doctors] table already holds a row for user id 1 while
    [users] is empty. *)
Definition db_stale_profile : DB :=
  mkDB [] 0 [ mkDoctor 1 1 "Old" "GP" ] 1 [] [] 0.

Definition approve_1 : Widgets :=
  mkWidgets 0 (fun _ => Some approved) (fun _ => Some "looks fine") (Some 1).

End Samples.

(** ** The pages: PDF text, login, the patient's page and [main] *)

Module Pages.

Import Store Workflow Extractor.

Definition newline : string := String (ascii_of_nat 10) "".

(** [extract_text_from_pdf]; a PDF is given by the text that
    [page.extract_text()] returns for each of its pages. *)
Definition extract_text_from_pdf (pages : list string) : string :=
  fold_left (fun text page => (text ++ (page ++ newline))%string) pages "".

(** [st.session_state]. *)
Record session_state : Type := mkSession {
  session_user_id : option nat;
  session_role : option string
}.

Definition logged_out : session_state := mkSession None None.

(** What the file uploader holds: nothing, a PDF, or a file on which
    [PyPDF2] raises (with the text of the exception). *)
Inductive upload : Type :=
| NoFile
| Pdf (pages : list string)
| BrokenPdf (error : string).

(** The input method radio with its widgets; [edited] is the text area that
    shows the extracted text ([None]: left as extracted). *)
Inductive input_option : Type :=
| TypeText (typed : string)
| UploadFile (uploaded_file : upload) (edited : option string).

Definition user_input_of (o : input_option) : option st_msg * string :=
  match o with
  | TypeText typed => (None, typed)
  | UploadFile NoFile _ => (None, "")
  | UploadFile (Pdf pages) edited =>
      (None, match edited with
             | Some s => s
             | None => extract_text_from_pdf pages
             end)
  | UploadFile (BrokenPdf e) _ =>
      (Some (st_error ("Error processing PDF: " ++ e)), "")
  end.

(** What the "New Analysis" page shows below the input: nothing, the
    results, or the error of the [except Exception] handler with the
    exception it caught (one of the extractor, or the text of one raised by
    the recommendation generator). *)
Inductive analysis_page : Type :=
| NotRun
| Results (keywords : list string) (summary recommendations : string)
| AnalysisFailed (cause : exn + string).

(** The sidebar radio of [patient_interface]. *)
Inductive nav_option : Type :=
| NewAnalysis (o : input_option) (analyze_clicked : bool)
| History.

(** The page of [patient_interface]: the analysis branch, or the History
    branch with what it reports or the exception it raises. *)
Inductive patient_page : Type :=
| AnalysisPage (msg : option st_msg) (p : analysis_page)
| HistoryPage (out : res (list st_msg)).

(** [status.upper()]: a value that is no text has no such method. *)
Definition upper (status : value) : res unit :=
  match status with
  | VText _ => Val tt
  | _ => Raise AttributeError
  end.

(** [if doctor_notes: st.info(doctor_notes)], on the text or NULL that the
    notes column holds. *)
Definition notes_info (doctor_notes : value) : list st_msg :=
  match doctor_notes with
  | VText s => if (s =? "")%string then [] else [st_info s]
  | _ => []
  end.

(** One turn of the History loop, lines 165-187: the row is unpacked into
    seven names, [ValueError] unless it has seven values; the body then
    displays them. *)
Definition history_record (row : list value) : res (list st_msg) :=
  match row with
  | [date; terms; summary; recommendations; status; analysis_id; doctor_notes] =>
      _ <- upper status ;;
      Val (notes_info doctor_notes)
  | _ => Raise ValueError
  end.

Fixpoint history_loop (history : list (list value)) : res (list st_msg) :=
  match history with
  | [] => Val []
  | row :: rest =>
      msgs <- history_record row ;;
      more <- history_loop rest ;;
      Val (msgs ++ more)
  end.

(** The History branch of [patient_interface], lines 158-187. *)
Definition history_page (db : DB) (user_id : nat) : res (list st_msg) :=
  match get_user_history db user_id with
  | [] => Val [st_info "No analysis history found"]
  | row :: rest => history_loop (row :: rest)
  end.

(** The button pressed in one run of [main], with the widgets it reads. *)
Inductive event : Type :=
| EvNone
| EvPatientLogin (username password : string)
| EvDoctorLogin (username password : string)
| EvRegister (role : reg_role)
             (new_username new_password confirm_password : string)
             (full_name specialization : string)
| EvLogout
| EvPatient (nav : nav_option)
| EvDoctor (w : Widgets).

Inductive page : Type :=
| LoginPage (msg : option st_msg)
| PatientView (p : patient_page)
| DoctorView (out : res (list st_msg))
| Rerun.

(** Widgets nobody has touched. *)
Definition idle_widgets : Widgets :=
  mkWidgets 0 (fun _ => None) (fun _ => None) None.

Definition idle_nav : nav_option := NewAnalysis (TypeText "") false.

Section WithCollaborators.

Variable hash_password : string -> string.
Variable nlp : string -> Doc.

(** [generate_recommendations] calls the language model: [inl] is its
    response, [inr] the text of the exception it raised. *)
Variable generate_recommendations : string -> string + string.

(** A login tab of [main], lines 395-423. *)
Definition login (tab : reg_role) (db : DB) (username password : string)
  (s : session_state) : st_msg * session_state :=
  match verify_user hash_password db username password with
  | Some user =>
      if (role user =? role_name tab)%string
      then (st_success "Login successful!",
            mkSession (Some (id user)) (Some (role_name tab)))
      else (st_error "Invalid username or password", s)
  | None => (st_error "Invalid username or password", s)
  end.

(** The "New Analysis" branch of [patient_interface], lines 92-156. *)
Definition new_analysis (db : DB) (user_id : nat) (o : input_option)
  (analyze_clicked : bool) (now : time) : patient_page * DB :=
  let '(msg, user_input) := user_input_of o in
  if analyze_clicked && negb (user_input =? "")%string
  then
    match extract_medical_keywords nlp user_input with
    | Raise e => (AnalysisPage msg (AnalysisFailed (inl e)), db)
    | Val keywords =>
        let summary := generate_summary keywords in
        match generate_recommendations summary with
        | inr e => (AnalysisPage msg (AnalysisFailed (inr e)), db)
        | inl recommendations =>
            (AnalysisPage msg (Results keywords summary recommendations),
             save_analysis db user_id (join ", " keywords) summary
                           recommendations now)
        end
    end
  else (AnalysisPage msg NotRun, db).

Definition patient_interface (db : DB) (user_id : nat) (nav : nav_option)
  (now : time) : patient_page * DB :=
  match nav with
  | NewAnalysis o analyze_clicked => new_analysis db user_id o analyze_clicked now
  | History => (HistoryPage (history_page db user_id), db)
  end.

(** One run of [main], lines 385-467. *)
Definition main (db : DB) (s : session_state) (ev : event) (now : time)
  : page * session_state * DB :=
  match session_user_id s with
  | None =>
      match ev with
      | EvPatientLogin username password =>
          let '(msg, s') := login Patient db username password s in
          (LoginPage (Some msg), s', db)
      | EvDoctorLogin username password =>
          let '(msg, s') := login Doctor db username password s in
          (LoginPage (Some msg), s', db)
      | EvRegister role u p c full_name specialization =>
          let '(msg, db') :=
            register hash_password db role u p c full_name specialization in
          (LoginPage (Some msg), s, db')
      | _ => (LoginPage None, s, db)
      end
  | Some user_id =>
      match ev with
      | EvLogout => (Rerun, logged_out, db)
      | _ =>
          match session_role s with
          | Some r =>
              if (r =? "doctor")%string
              then
                let w := match ev with
                         | EvDoctor w => w
                         | _ => idle_widgets
                         end in
                let '(out, db') := doctor_interface db user_id w now in
                (DoctorView out, s, db')
              else
                let nav := match ev with
                           | EvPatient nav => nav
                           | _ => idle_nav
                           end in
                let '(p, db') := patient_interface db user_id nav now in
                (PatientView p, s, db')
          | None =>
              let nav := match ev with
                         | EvPatient nav => nav
                         | _ => idle_nav
                         end in
              let '(p, db') := patient_interface db user_id nav now in
              (PatientView p, s, db')
          end
      end
  end.

(** Successive runs of [main], each with its button and its clock. *)
Fixpoint runs (db : DB) (s : session_state) (evs : list (event * time))
  : session_state * DB :=
  match evs with
  | [] => (s, db)
  | (ev, now) :: evs' =>
      let '(_, s', db') := main db s ev now in
      runs db' s' evs'
  end.

End WithCollaborators.

End Pages.

(** ** Properties of stores and sessions used in the statements *)

Module Invariants.

Import Store Workflow Pages.

(** The PRIMARY KEY and UNIQUE constraints of the schema. *)
Definition key_constraints (db : DB) : Prop :=
  NoDup (map users_id (users db))
  /\ NoDup (map users_username (users db))
  /\ NoDup (map doctors_id (doctors db))
  /\ NoDup (map doctors_user_id (doctors db))
  /\ NoDup (map (fun dp => (dp_doctor_id dp, dp_patient_id dp))
                (doctor_patient db))
  /\ NoDup (map ah_id (analysis_history db)).

(** The columns of an analysis record that a review does not write. *)
Definition submitted (r : analysis_row)
  : nat * nat * time * string * string * string * option nat :=
  (ah_id r, ah_user_id r, ah_analysis_date r, ah_medical_terms r,
   ah_summary r, ah_recommendations r, ah_doctor_id r).

(** The session, when logged in, names a users row with the session's
    role. *)
Definition session_ok (db : DB) (s : session_state) : Prop :=
  match session_user_id s with
  | None => True
  | Some uid =>
      exists u, In u (users db)
                /\ users_id u = uid
                /\ session_role s = Some (users_role u)
                /\ (users_role u = "patient" \/ users_role u = "doctor")
  end.

End Invariants.

(* ===================================================================== *)
(** * Part II: theorems                                                    *)
(* ===================================================================== *)

(** ** Facts about the string helpers *)

Module PyStrFacts.

Lemma upper_not_lower (c : ascii) :
  char_isupper c = true -> char_islower c = false.
Proof.
  unfold char_isupper, char_islower, in_range.
  rewrite andb_true_iff, andb_false_iff, !Nat.leb_le, !Nat.leb_gt. lia.
Qed.

Lemma isupper_one_char (c : ascii) :
  isupper (String c "") = char_isupper c.
Proof.
  unfold isupper; simpl. rewrite !orb_false_r.
  destruct (char_isupper c) eqn:U.
  - now rewrite (upper_not_lower c U).
  - apply andb_false_r.
Qed.

Lemma getitem_first (s : string) :
  getitem s 0 = match s with
                | EmptyString => Raise IndexError
                | String c _ => Val (String c "")
                end.
Proof. now destruct s. Qed.

Lemma contains_app (d1 d2 : list string) (x : string) :
  contains (d1 ++ d2) x = contains d1 x || contains d2 x.
Proof. apply existsb_app. Qed.

Lemma contains_In (d : list string) (x : string) :
  contains d x = true <-> In x d.
Proof.
  unfold contains. rewrite existsb_exists. split.
  - intros [y [Hy E]]. apply String.eqb_eq in E. now subst.
  - intros H. exists x. split; [assumption | apply String.eqb_refl].
Qed.

Lemma any_char_app (p : ascii -> bool) (a b : string) :
  any_char p (a ++ b)%string = any_char p a || any_char p b.
Proof.
  induction a as [| c a IH]; simpl; [reflexivity |].
  now rewrite IH, orb_assoc.
Qed.

Lemma append_empty_r (a : string) : (a ++ "")%string = a.
Proof. induction a as [| c a IH]; simpl; congruence. Qed.

Lemma append_cancel_l (a b c : string) :
  (a ++ b)%string = (a ++ c)%string -> b = c.
Proof. induction a as [| x a IH]; simpl; [trivial | intros H; injection H; auto]. Qed.

(** Two strings followed by the same last character are equal. *)
Lemma append_last_inj (a b : string) (c : ascii) :
  (a ++ String c "")%string = (b ++ String c "")%string -> a = b.
Proof.
  revert b; induction a as [| x a IH]; intros [| y b] H; simpl in H.
  - reflexivity.
  - injection H as _ H. destruct b; discriminate.
  - injection H as _ H. destruct a; discriminate.
  - injection H as -> H. f_equal. now apply IH.
Qed.

End PyStrFacts.

Import PyStrFacts.

(** ** The term extractor *)

Import Extractor.

Example extract_sample :
  extract_medical_keywords (fun _ => doc_sample) "any" =
  Val ["WHO"; "chronic fever"; "Paris"; "the Pain"].
Proof. reflexivity. Qed.

Example extract_empty_condition :
  extract_medical_keywords (fun _ => doc_empty_condition) "any" = Val [""].
Proof. reflexivity. Qed.

Example extract_empty_org :
  extract_medical_keywords (fun _ => doc_empty_org) "any" = Raise IndexError.
Proof. reflexivity. Qed.

Example split_sample : split "  Acute  MI  now " = ["Acute"; "MI"; "now"].
Proof. reflexivity. Qed.

Module ExtractorFacts.

(** *** Deduplication *)

Lemma filter_swap {A : Type} (p q : A -> bool) (l : list A) :
  filter p (filter q l) = filter q (filter p l).
Proof.
  induction l as [| y l IH]; simpl; [reflexivity |].
  destruct (q y) eqn:Q, (p y) eqn:P; simpl; rewrite ?Q, ?P, IH; reflexivity.
Qed.

Lemma filter_implied {A : Type} (p q : A -> bool) (l : list A) :
  (forall y, p y = true -> q y = true) ->
  filter p (filter q l) = filter p l.
Proof.
  intros H. induction l as [| y l IH]; simpl; [reflexivity |].
  destruct (p y) eqn:P.
  - rewrite (H y P). simpl. now rewrite P, IH.
  - destruct (q y); simpl; rewrite ?P; exact IH.
Qed.

Lemma first_occurrences_filter (p : string -> bool) (l : list string) :
  first_occurrences (filter p l) = filter p (first_occurrences l).
Proof.
  induction l as [| a l IH]; simpl; [reflexivity |].
  destruct (p a) eqn:Pa; simpl; rewrite IH.
  - f_equal. apply filter_swap.
  - symmetry. apply filter_implied.
    intros y Py. apply negb_true_iff, String.eqb_neq. congruence.
Qed.

Lemma fold_fromkeys (xs d : list string) :
  fold_left (fun d k => if contains d k then d else d ++ [k]) xs d
  = d ++ first_occurrences (filter (fun x => negb (contains d x)) xs).
Proof.
  revert d; induction xs as [| x xs IH]; intros d; simpl.
  - now rewrite app_nil_r.
  - destruct (contains d x) eqn:C; simpl; [apply IH |].
    rewrite IH, <- app_assoc. simpl. do 2 f_equal.
    rewrite <- first_occurrences_filter. f_equal.
    clear. induction xs as [| y xs IHxs]; simpl; [reflexivity |].
    rewrite contains_app. simpl. rewrite orb_false_r, negb_orb.
    destruct (contains d y); simpl; [assumption |].
    destruct (y =? x)%string; simpl; now rewrite IHxs.
Qed.

(** [list(dict.fromkeys(xs))] keeps exactly the first occurrences. *)
Lemma fromkeys_first_occurrences (xs : list string) :
  fromkeys xs = first_occurrences xs.
Proof.
  unfold fromkeys. rewrite fold_fromkeys. simpl. f_equal.
  induction xs as [| x xs IH]; simpl; congruence.
Qed.

Lemma first_occurrences_In (xs : list string) (x : string) :
  In x (first_occurrences xs) <-> In x xs.
Proof.
  induction xs as [| a xs IH]; simpl; [tauto |].
  rewrite filter_In, IH, negb_true_iff, String.eqb_neq.
  destruct (string_dec a x); intuition congruence.
Qed.

Lemma first_occurrences_NoDup (xs : list string) :
  NoDup (first_occurrences xs).
Proof.
  induction xs as [| a xs IH]; simpl; constructor.
  - rewrite filter_In, negb_true_iff, String.eqb_neq. tauto.
  - now apply NoDup_filter.
Qed.

(** *** The two loops *)

Lemma lower_symptom_words :
  forall w, In w symptom_words -> lower w = w.
Proof.
  intros w H. simpl in H.
  repeat (destruct H as [<- | H]; [reflexivity |]). contradiction.
Qed.

Lemma vocabulary_caseless (t : string) (ws : list string) :
  (forall w, In w ws -> lower w = w) ->
  contains ws (lower t) = existsb (caseless_eq t) ws.
Proof.
  unfold contains, caseless_eq.
  induction ws as [| w ws IH]; intros L; cbn [existsb]; [reflexivity |].
  rewrite (L w (or_introl eq_refl)), IH; [reflexivity |].
  intros v Hv. apply L. now right.
Qed.

Lemma chunk_test_keeps_phrase (chunk : Span) :
  chunk_test chunk = keeps_phrase chunk.
Proof.
  unfold chunk_test, keeps_phrase.
  induction (tokens chunk) as [| t ts IH]; cbn [existsb]; [reflexivity |].
  now rewrite IH, (vocabulary_caseless t _ lower_symptom_words).
Qed.

Lemma for_chunks_filter (cs : list Span) (acc : list string) :
  for_chunks cs acc = acc ++ map text (filter keeps_phrase cs).
Proof.
  revert acc; induction cs as [| c cs IH]; intros acc; simpl.
  - now rewrite app_nil_r.
  - rewrite IH, chunk_test_keeps_phrase.
    destruct (keeps_phrase c); simpl; [now rewrite <- app_assoc | reflexivity].
Qed.

(** The entity test either evaluates to the specified filter or raises at
    the first-character lookup. *)
Lemma entity_test_cases (ent : Span) :
  entity_test ent =
  if hits_index_error ent then Raise IndexError else Val (keeps_entity ent).
Proof.
  unfold entity_test, hits_index_error, keeps_entity.
  destruct ent as [t l toks]; cbn [text label_].
  rewrite getitem_first.
  destruct t as [| c t].
  - change (split "") with (@nil string). cbn [existsb List.length].
    rewrite andb_false_r. cbn.
    destruct (l =? "CONDITION")%string; reflexivity.
  - change ((String c t =? "")%string) with false.
    cbn [andb first_char_upper Py.bind].
    destruct (contains ["ORG"; "GPE"] l && existsb isupper (split (String c t)));
      [reflexivity |].
    destruct (l =? "CONDITION")%string; [reflexivity |].
    destruct (List.length (split (String c t)) <=? 3); [| reflexivity].
    cbn [orb andb]. now rewrite isupper_one_char.
Qed.

Lemma for_ents_cases (es : list Span) (acc : list string) :
  for_ents es acc =
  if existsb hits_index_error es then Raise IndexError
  else Val (acc ++ map text (filter keeps_entity es)).
Proof.
  revert acc; induction es as [| e es IH]; intros acc; simpl.
  - now rewrite app_nil_r.
  - rewrite entity_test_cases.
    destruct (hits_index_error e); simpl; [reflexivity |].
    rewrite IH. destruct (existsb hits_index_error es); [reflexivity |].
    destruct (keeps_entity e); simpl; [now rewrite <- app_assoc | reflexivity].
Qed.

(** The extractor on every analyzer output. *)
Lemma extract_cases (nlp : string -> Doc) (input : string) :
  extract_medical_keywords nlp input =
  if existsb hits_index_error (ents (nlp input)) then Raise IndexError
  else Val (extract_spec (nlp input)).
Proof.
  unfold extract_medical_keywords, extract_spec.
  rewrite for_ents_cases.
  destruct (existsb hits_index_error (ents (nlp input))); simpl; [reflexivity |].
  now rewrite for_chunks_filter, fromkeys_first_occurrences.
Qed.

Lemma nonempty_no_index_error (es : list Span) :
  (forall ent, In ent es -> text ent <> "") ->
  existsb hits_index_error es = false.
Proof.
  intros H. apply not_true_is_false. rewrite existsb_exists.
  intros [e [He E]]. unfold hits_index_error in E.
  apply andb_true_iff in E as [E _]. apply String.eqb_eq in E.
  exact (H e He E).
Qed.

(** C3: on every analyzer output the extractor returns the entities kept by
    the three-way filter followed by the noun phrases holding a vocabulary
    word, first occurrences only and in production order.  It does return
    whenever no entity has empty text, and whatever it returns is that list. *)
Theorem extract_returns_filtered_terms :
  forall (nlp : string -> Doc) (input : string),
    ((forall ent, In ent (ents (nlp input)) -> text ent <> "") ->
     extract_medical_keywords nlp input = Val (extract_spec (nlp input)))
    /\ (forall terms,
          extract_medical_keywords nlp input = Val terms ->
          terms = extract_spec (nlp input)).
Proof.
  intros nlp input. rewrite extract_cases. split.
  - intros H. now rewrite nonempty_no_index_error.
  - intros terms. destruct (existsb hits_index_error (ents (nlp input)));
      [discriminate | congruence].
Qed.

Lemma extract_returns_filtered_terms_witness :
  extract_medical_keywords (fun _ => doc_sample) "fever since last week"
  = Val ["WHO"; "chronic fever"; "Paris"; "the Pain"].
Proof.
  apply (proj1 (extract_returns_filtered_terms
                  (fun _ => doc_sample) "fever since last week")).
  intros ent H. simpl in H.
  repeat (destruct H as [<- | H]; [discriminate |]). contradiction.
Defined.

(** The claim of C10 read as an equivalence fails: an entity with empty text
    and label CONDITION is accepted before its first character is read. *)
Lemma nonempty_text_not_necessary :
  ~ (forall (nlp : string -> Doc) (input : string),
       returns (extract_medical_keywords nlp input) = true
       <-> (forall ent, In ent (ents (nlp input)) -> text ent <> "")).
Proof.
  intros H.
  destruct (H (fun _ => doc_empty_condition) "") as [H1 _].
  apply (H1 eq_refl (mkSpan "" "CONDITION" [])); [now left | reflexivity].
Qed.

(** C10 (amended): the first-character lookup is the only point where the
    extractor can raise; it raises exactly when some entity has empty text
    and a label other than CONDITION, so it returns whenever every entity
    has non-empty text. *)
Theorem extract_raises_exactly_on_empty_text :
  forall (nlp : string -> Doc) (input : string),
    (extract_medical_keywords nlp input = Raise IndexError
     <-> exists ent, In ent (ents (nlp input))
                     /\ text ent = "" /\ label_ ent <> "CONDITION")
    /\ (returns (extract_medical_keywords nlp input) = false
        <-> extract_medical_keywords nlp input = Raise IndexError)
    /\ ((forall ent, In ent (ents (nlp input)) -> text ent <> "") ->
        returns (extract_medical_keywords nlp input) = true).
Proof.
  intros nlp input. rewrite extract_cases.
  assert (E : existsb hits_index_error (ents (nlp input)) = true
              <-> exists ent, In ent (ents (nlp input))
                              /\ text ent = "" /\ label_ ent <> "CONDITION").
  { rewrite existsb_exists. unfold hits_index_error.
    split; intros [e [He H]]; exists e; split; trivial.
    - apply andb_true_iff in H as [H1 H2].
      apply String.eqb_eq in H1. apply negb_true_iff, String.eqb_neq in H2.
      now split.
    - destruct H as [H1 H2]. apply andb_true_iff.
      split; [now apply String.eqb_eq | now apply negb_true_iff, String.eqb_neq]. }
  repeat split.
  - intros H. apply E.
    destruct (existsb hits_index_error (ents (nlp input))); [reflexivity | discriminate].
  - intros H. apply E in H. now rewrite H.
  - destruct (existsb hits_index_error (ents (nlp input))); [reflexivity | discriminate].
  - destruct (existsb hits_index_error (ents (nlp input))); [reflexivity | discriminate].
  - intros H. now rewrite nonempty_no_index_error.
Qed.

Lemma extract_raises_exactly_on_empty_text_witness :
  returns (extract_medical_keywords (fun _ => doc_sample) "fever") = true.
Proof.
  apply (proj2 (proj2 (extract_raises_exactly_on_empty_text
                         (fun _ => doc_sample) "fever"))).
  intros ent H. simpl in H.
  repeat (destruct H as [<- | H]; [discriminate |]). contradiction.
Defined.

End ExtractorFacts.

(** ** The summary composer *)

Module ComposerFacts.

Example summary_sample :
  generate_summary ["fever"; "cough"] =
  "Based on the analysis, the key medical conditions and symptoms include: fever, cough.".
Proof. reflexivity. Qed.

Example summary_keeps_repeats :
  generate_summary ["cough"; "fever"; "cough"] =
  "Based on the analysis, the key medical conditions and symptoms include: cough, fever, cough.".
Proof. reflexivity. Qed.

Lemma join_cons (sep a b : string) (l : list string) :
  join sep (a :: b :: l) = (a ++ sep ++ join sep (b :: l))%string.
Proof. reflexivity. Qed.

(** A comma-free string is cut off at the first comma. *)
Lemma first_comma_inj (a b x y : string) :
  comma_free a = true -> comma_free b = true ->
  (a ++ String "," x)%string = (b ++ String "," y)%string ->
  a = b /\ x = y.
Proof.
  unfold comma_free. revert b.
  induction a as [| c a IH]; intros [| d b] Ha Hb H;
    cbn [any_char append] in *.
  - injection H as H. now split.
  - injection H as H _. subst d. now rewrite Ascii.eqb_refl in Hb.
  - injection H as H _. subst c. now rewrite Ascii.eqb_refl in Ha.
  - injection H as -> H.
    destruct (Ascii.eqb "," d); [discriminate |]. cbn [orb] in Ha, Hb.
    destruct (IH b Ha Hb H) as [-> ->]. now split.
Qed.

Lemma comma_free_no_comma (a b y : string) :
  comma_free a = true -> a <> (b ++ String "," y)%string.
Proof.
  unfold comma_free. intros Ha ->.
  rewrite any_char_app in Ha. simpl in Ha.
  now rewrite orb_true_r in Ha.
Qed.

(** Joining with ", " loses neither the order nor the repetitions of
    comma-free terms. *)
Lemma join_inj (l1 l2 : list string) :
  l1 <> [] -> l2 <> [] ->
  Forall (fun k => comma_free k = true) l1 ->
  Forall (fun k => comma_free k = true) l2 ->
  join ", " l1 = join ", " l2 -> l1 = l2.
Proof.
  revert l2. induction l1 as [| a r1 IH]; intros l2 N1 N2 F1 F2 H;
    [congruence |].
  destruct l2 as [| b r2]; [congruence |].
  inversion F1 as [| ? ? Ca F1']; inversion F2 as [| ? ? Cb F2']; subst.
  destruct r1 as [| a2 r1], r2 as [| b2 r2].
  - simpl in H. now subst.
  - rewrite join_cons in H. simpl in H.
    now apply comma_free_no_comma in H.
  - rewrite join_cons in H. simpl in H. symmetry in H.
    now apply comma_free_no_comma in H.
  - rewrite !join_cons in H.
    apply first_comma_inj in H as [-> H]; trivial.
    injection H as H. f_equal. apply IH; trivial; discriminate.
Qed.

(** C9: the composer is total; the empty sequence gives the fixed sentinel
    sentence, and a non-empty sequence gives the fixed template around the
    terms joined with ", " in the given order.  Nothing is re-sorted or
    dropped: two non-empty sequences of comma-free terms with the same
    sentence are the same sequence. *)
Theorem generate_summary_template :
  generate_summary [] = "No specific medical terms were identified in the input."
  /\ (forall keywords,
        keywords <> [] ->
        generate_summary keywords =
        ("Based on the analysis, the key medical conditions and symptoms include: "
         ++ join ", " keywords ++ ".")%string)
  /\ (forall k ks, join ", " (k :: ks)
                   = (k ++ String.concat "" (map (fun t => ", " ++ t) ks))%string)
  /\ (forall ks1 ks2,
        ks1 <> [] -> ks2 <> [] ->
        Forall (fun k => comma_free k = true) ks1 ->
        Forall (fun k => comma_free k = true) ks2 ->
        generate_summary ks1 = generate_summary ks2 -> ks1 = ks2).
Proof.
  split; [reflexivity |]. split; [| split].
  - intros [| k ks] H; [congruence | reflexivity].
  - intros k ks. revert k. induction ks as [| a ks IH]; intros k.
    + simpl. now rewrite append_empty_r.
    + rewrite join_cons, IH. simpl. destruct ks; simpl;
        now rewrite ?append_empty_r.
  - intros [| a r1] [| b r2] N1 N2 F1 F2 H; try congruence.
    unfold generate_summary in H.
    apply append_cancel_l in H.
    apply append_last_inj in H.
    now apply join_inj.
Qed.

Lemma generate_summary_template_witness :
  generate_summary ["fever"; "cough"] =
  "Based on the analysis, the key medical conditions and symptoms include: fever, cough.".
Proof.
  apply (proj1 (proj2 generate_summary_template) ["fever"; "cough"]).
  discriminate.
Defined.

End ComposerFacts.

(** ** The analysis-record store *)

Import Store.

Module StoreFacts.

Lemma fresh_id_above (ids : list nat) (seq x : nat) :
  In x ids -> x < fresh_id ids seq.
Proof.
  intros H. unfold fresh_id.
  assert (L : list_max ids <= list_max ids) by lia.
  apply list_max_le in L. rewrite Forall_forall in L.
  specialize (L x H). lia.
Qed.

Lemma fresh_id_new (ids : list nat) (seq : nat) :
  ~ In (fresh_id ids seq) ids.
Proof. intros H. apply (fresh_id_above ids seq) in H. lia. Qed.

Lemma find_app_none {A : Type} (f : A -> bool) (l1 l2 : list A) :
  find f l1 = None -> find f (l1 ++ l2) = find f l2.
Proof.
  induction l1 as [| x l1 IH]; simpl; [trivial |].
  destruct (f x); [discriminate | exact IH].
Qed.

Lemma find_none_iff {A : Type} (f : A -> bool) (l : list A) :
  find f l = None <-> forall x, In x l -> f x = false.
Proof.
  split; [apply find_none |].
  induction l as [| x l IH]; simpl; intros H; [reflexivity |].
  rewrite (H x (or_introl eq_refl)). apply IH. intros y Hy. apply H. now right.
Qed.

(** *** Creation *)

Lemma insert_analysis_rows (db : DB) (user_id : nat) (date : time)
  (m s r : string) (st : option string) :
  analysis_history (insert_analysis db user_id date m s r st)
  = analysis_history db
    ++ [mkAnalysis (fresh_id (map ah_id (analysis_history db)) (analysis_seq db))
                   user_id date m s r None
                   st None None].
Proof. reflexivity. Qed.

Lemma find_analysis_fresh (db : DB) (r : analysis_row) (db' : DB) :
  analysis_history db' = analysis_history db ++ [r] ->
  ah_id r = fresh_id (map ah_id (analysis_history db)) (analysis_seq db) ->
  find_analysis db' (ah_id r) = Some r.
Proof.
  intros E F. unfold find_analysis. rewrite E, find_app_none.
  - simpl. now rewrite Nat.eqb_refl.
  - apply find_none_iff. intros x Hx. apply Nat.eqb_neq. intros Hid.
    apply (fresh_id_new (map ah_id (analysis_history db)) (analysis_seq db)).
    rewrite <- F, <- Hid. now apply in_map.
Qed.

(** C4: [save_analysis] as the file leaves it bound (lines 470-479) does not
    force the status: its INSERT lists no status column, so on the table
    that [init_db] creates (lines 223-233, no status column, hence no
    default) the record of [save_analysis(1, "fever", "s", "r")] is stored
    without a status, and in general the record carries whatever default
    the table has for that column.  The sibling definition of lines 189-199
    does what the claim says: on a table with the status column that its
    INSERT names, it writes 'pending' for every patient and payload. *)
Theorem save_analysis_in_force_leaves_status_to_table :
  analysis_history (save_analysis_nostatus None empty_db 1 "fever" "s" "r" 10)
  = [mkAnalysis 1 1 10 "fever" "s" "r" None None None None]
  /\ (forall (column_default : option string) (db : DB) (user_id : nat)
             (medical_terms summary recommendations : string) (now : time),
         exists r,
           analysis_history (save_analysis_nostatus column_default db user_id
                               medical_terms summary recommendations now)
           = analysis_history db ++ [r]
           /\ ah_status r = column_default
           /\ ah_user_id r = user_id
           /\ ah_analysis_date r = now
           /\ ah_medical_terms r = medical_terms
           /\ ah_summary r = summary
           /\ ah_recommendations r = recommendations)
  /\ (forall (db : DB) (user_id : nat)
             (medical_terms summary recommendations : string) (now : time),
         exists r,
           analysis_history (save_analysis db user_id medical_terms summary
                                           recommendations now)
           = analysis_history db ++ [r]
           /\ ah_status r = Some "pending"
           /\ ah_user_id r = user_id
           /\ ah_analysis_date r = now
           /\ ah_medical_terms r = medical_terms
           /\ ah_summary r = summary
           /\ ah_recommendations r = recommendations
           /\ ah_doctor_notes r = None
           /\ find_analysis (save_analysis db user_id medical_terms summary
                                           recommendations now) (ah_id r)
              = Some r).
Proof.
  split; [reflexivity |]. split.
  - intros d db user_id medical_terms summary recommendations now.
    unfold save_analysis_nostatus. eexists.
    rewrite insert_analysis_rows. repeat split.
  - intros db user_id medical_terms summary recommendations now.
    unfold save_analysis. eexists. rewrite insert_analysis_rows.
    split; [reflexivity |]. repeat (split; [reflexivity |]).
    eapply find_analysis_fresh; [apply insert_analysis_rows | reflexivity].
Qed.

(** *** Review update *)

Lemma update_row_id (i : nat) (s n : string) (now : time) (r : analysis_row) :
  ah_id (update_row i s n now r) = ah_id r.
Proof. unfold update_row. now destruct (ah_id r =? i). Qed.

Lemma find_update_same (db : DB) (i : nat) (s n : string) (now : time)
  (r : analysis_row) :
  find_analysis db i = Some r ->
  find_analysis (update_analysis_status db i s n now) i
  = Some (reviewed r s n now).
Proof.
  unfold find_analysis, update_analysis_status. simpl.
  induction (analysis_history db) as [| x l IH]; simpl; [discriminate |].
  rewrite update_row_id. destruct (ah_id x =? i) eqn:E.
  - intros [= <-]. unfold update_row. now rewrite E.
  - exact IH.
Qed.

Lemma find_update_other (db : DB) (i j : nat) (s n : string) (now : time) :
  j <> i ->
  find_analysis (update_analysis_status db i s n now) j = find_analysis db j.
Proof.
  intros N. unfold find_analysis, update_analysis_status. simpl.
  induction (analysis_history db) as [| x l IH]; simpl; [reflexivity |].
  rewrite update_row_id. destruct (ah_id x =? j) eqn:E; [| exact IH].
  apply Nat.eqb_eq in E. unfold update_row.
  destruct (ah_id x =? i) eqn:F; [| reflexivity].
  apply Nat.eqb_eq in F. congruence.
Qed.

Lemma update_unknown (db : DB) (i : nat) (s n : string) (now : time) :
  find_analysis db i = None ->
  update_analysis_status db i s n now = db.
Proof.
  unfold find_analysis, update_analysis_status. intros H.
  assert (M : map (update_row i s n now) (analysis_history db)
              = analysis_history db).
  { rewrite find_none_iff in H.
    induction (analysis_history db) as [| x l IH]; simpl; [reflexivity |].
    rewrite IH by (intros y Hy; apply H; now right).
    unfold update_row. now rewrite (H x (or_introl eq_refl)). }
  rewrite M. now destruct db.
Qed.

Example update_bogus_status :
  map ah_status
      (analysis_history (update_analysis_status Samples.db_unassigned 1 "bogus" "n" 20))
  = [Some "bogus"].
Proof. reflexivity. Qed.

(** The claim of C5 fails on the code: a status outside the three review
    states is written to the record. *)
Lemma update_writes_unrecognized_status :
  ~ (forall (db : DB) (analysis_id : nat) (status doctor_notes : string)
            (now : time),
       ~ In status ["pending"; "approved"; "disapproved"] ->
       find_analysis (update_analysis_status db analysis_id status doctor_notes now)
                     analysis_id
       = find_analysis db analysis_id).
Proof.
  intros H.
  specialize (H Samples.db_unassigned 1 "bogus" "n" 20).
  assert (N : ~ In "bogus" ["pending"; "approved"; "disapproved"]).
  { simpl. intros [E | [E | [E | []]]]; discriminate. }
  specialize (H N). vm_compute in H. discriminate.
Qed.

(** C5 (amended): [update_analysis_status] has no failure: on an id that
    resolves to no record it leaves the store as it is, and on an id that
    resolves it writes the given status string, whatever it is, together
    with the notes, and sets last_modified to the operation time; no other
    record and no other table changes. *)
Theorem update_analysis_status_effect :
  forall (db : DB) (analysis_id : nat) (status doctor_notes : string) (now : time),
    (find_analysis db analysis_id = None ->
     update_analysis_status db analysis_id status doctor_notes now = db)
    /\ (forall r,
          find_analysis db analysis_id = Some r ->
          find_analysis (update_analysis_status db analysis_id status doctor_notes now)
                        analysis_id
          = Some (reviewed r status doctor_notes now))
    /\ (forall other,
          other <> analysis_id ->
          find_analysis (update_analysis_status db analysis_id status doctor_notes now)
                        other
          = find_analysis db other)
    /\ users (update_analysis_status db analysis_id status doctor_notes now) = users db
    /\ doctors (update_analysis_status db analysis_id status doctor_notes now) = doctors db
    /\ doctor_patient (update_analysis_status db analysis_id status doctor_notes now)
       = doctor_patient db.
Proof.
  intros. split; [apply update_unknown |].
  split; [intros r; apply find_update_same |].
  split; [intros other; apply find_update_other |].
  repeat split.
Qed.

Lemma update_analysis_status_effect_witness :
  find_analysis (update_analysis_status Samples.db_unassigned 1 "approved"
                                        "looks fine" 20) 1
  = Some (mkAnalysis 1 1 10 "fever" "s" "r" None (Some "approved")
                     (Some "looks fine") (Some 20)).
Proof.
  apply (proj1 (proj2 (update_analysis_status_effect
                         Samples.db_unassigned 1 "approved" "looks fine" 20))
               (mkAnalysis 1 1 10 "fever" "s" "r" None (Some "pending") None None)).
  reflexivity.
Defined.

End StoreFacts.

(** ** History listing *)

Import StoreFacts.

Module HistoryFacts.

Lemma insert_desc_perm (r : analysis_row) (l : list analysis_row) :
  Permutation (insert_desc r l) (r :: l).
Proof.
  induction l as [| x l IH]; simpl; [apply Permutation_refl |].
  destruct (ah_analysis_date x <=? ah_analysis_date r).
  - apply Permutation_refl.
  - eapply perm_trans; [apply perm_skip, IH | apply perm_swap].
Qed.

Lemma order_by_date_desc_perm (l : list analysis_row) :
  Permutation (order_by_date_desc l) l.
Proof.
  induction l as [| r l IH]; simpl; [constructor |].
  eapply perm_trans; [apply insert_desc_perm | now apply perm_skip].
Qed.

Lemma order_by_date_desc_In (l : list analysis_row) (r : analysis_row) :
  In r (order_by_date_desc l) <-> In r l.
Proof.
  split; apply Permutation_in;
    [| apply Permutation_sym]; apply order_by_date_desc_perm.
Qed.

Lemma insert_desc_sorted (r : analysis_row) (l : list analysis_row) :
  StronglySorted newer_first l -> StronglySorted newer_first (insert_desc r l).
Proof.
  induction 1 as [| x l Hs IH Hx]; simpl.
  - repeat constructor.
  - destruct (ah_analysis_date x <=? ah_analysis_date r) eqn:E.
    + apply Nat.leb_le in E. constructor; [now constructor |].
      constructor; [exact E |].
      eapply Forall_impl; [| exact Hx].
      unfold newer_first. intros y Hy. lia.
    + apply Nat.leb_gt in E. constructor; [exact IH |].
      rewrite Forall_forall. intros y Hy.
      apply (Permutation_in _ (insert_desc_perm r l)) in Hy.
      destruct Hy as [<- | Hy].
      * unfold newer_first. lia.
      * rewrite Forall_forall in Hx. now apply Hx.
Qed.

Lemma order_by_date_desc_sorted (l : list analysis_row) :
  StronglySorted newer_first (order_by_date_desc l).
Proof.
  induction l as [| r l IH]; simpl; [constructor | now apply insert_desc_sorted].
Qed.

Lemma sorted_map {A B : Type} (f : A -> B) (R : B -> B -> Prop) (l : list A) :
  StronglySorted (fun a b => R (f a) (f b)) l -> StronglySorted R (map f l).
Proof.
  induction 1 as [| x l Hs IH Hx]; simpl; constructor; trivial.
  rewrite Forall_map. exact Hx.
Qed.

Lemma select_history_rows (db : DB) (user_id : nat) (r : analysis_row) :
  In r (select_history db user_id)
  <-> In r (analysis_history db) /\ ah_user_id r = user_id.
Proof.
  unfold select_history.
  now rewrite order_by_date_desc_In, filter_In, Nat.eqb_eq.
Qed.

(** Every row the pages get from [get_user_history] has four values. *)
Lemma get_user_history_columns (db : DB) (user_id : nat) :
  forall row, In row (get_user_history db user_id) -> List.length row = 4.
Proof.
  unfold get_user_history. intros row H.
  apply in_map_iff in H as (h4 & <- & _). reflexivity.
Qed.

Example history_three :
  map date4
      (get_user_history_4
         (save_analysis (save_analysis (save_analysis Samples.db_unassigned
            1 "a" "sa" "ra" 20) 1 "b" "sb" "rb" 30) 1 "c" "sc" "rc" 40) 1)
  = [40; 30; 20; 10].
Proof. reflexivity. Qed.

(** C6: [get_user_history] returns exactly the analysis records of the given
    patient, ordered by analysis_date descending; three records saved for a
    patient at strictly increasing times are listed newest to oldest. *)
Theorem history_most_recent_first :
  forall (db : DB) (user_id : nat),
    StronglySorted (fun t1 t2 => t2 <= t1)
                   (map date4 (get_user_history_4 db user_id))
    /\ Permutation (get_user_history_4 db user_id)
                   (map history4_of
                        (filter (fun r => ah_user_id r =? user_id)
                                (analysis_history db)))
    /\ (forall (t1 t2 t3 : time) (m1 s1 r1 m2 s2 r2 m3 s3 r3 : string),
          t1 < t2 -> t2 < t3 ->
          (forall r, In r (analysis_history db) -> ah_user_id r <> user_id) ->
          get_user_history_4
            (save_analysis
               (save_analysis
                  (save_analysis db user_id m1 s1 r1 t1)
                  user_id m2 s2 r2 t2)
               user_id m3 s3 r3 t3)
            user_id
          = [(t3, m3, s3, r3); (t2, m2, s2, r2); (t1, m1, s1, r1)]).
Proof.
  intros db user_id. split; [| split].
  - unfold get_user_history_4. rewrite map_map.
    apply sorted_map with (f := fun r => date4 (history4_of r)).
    apply order_by_date_desc_sorted.
  - unfold get_user_history_4, select_history.
    apply Permutation_map, order_by_date_desc_perm.
  - intros t1 t2 t3 m1 s1 r1 m2 s2 r2 m3 s3 r3 H12 H23 Hnone.
    unfold get_user_history_4, select_history, save_analysis.
    rewrite !insert_analysis_rows, <- !app_assoc. simpl app.
    rewrite filter_app.
    assert (E : filter (fun r => ah_user_id r =? user_id) (analysis_history db) = []).
    { induction (analysis_history db) as [| x l IH]; simpl; [reflexivity |].
      destruct (ah_user_id x =? user_id) eqn:U.
      - apply Nat.eqb_eq in U. exfalso. apply (Hnone x); [now left | exact U].
      - apply IH. intros r Hr. apply Hnone. now right. }
    rewrite E. simpl. rewrite Nat.eqb_refl. simpl.
    assert (L32 : (t3 <=? t2) = false) by (apply Nat.leb_gt; lia).
    assert (L31 : (t3 <=? t1) = false) by (apply Nat.leb_gt; lia).
    assert (L21 : (t2 <=? t1) = false) by (apply Nat.leb_gt; lia).
    rewrite L32. simpl. rewrite L31, L21. reflexivity.
Qed.

Lemma history_most_recent_first_witness :
  get_user_history_4
    (save_analysis
       (save_analysis
          (save_analysis empty_db 1 "fever" "s1" "r1" 10)
          1 "cough" "s2" "r2" 20)
       1 "rash" "s3" "r3" 30)
    1
  = [(30, "rash", "s3", "r3"); (20, "cough", "s2", "r2"); (10, "fever", "s1", "r1")].
Proof.
  apply (proj2 (proj2 (history_most_recent_first empty_db 1))
               10 20 30 "fever" "s1" "r1" "cough" "s2" "r2" "rash" "s3" "r3").
  - lia.
  - lia.
  - intros r H. destruct H.
Defined.

End HistoryFacts.

(** ** Accounts: registration and authentication *)

Import Workflow.

Module AccountFacts.

Lemma existsb_find_none {A : Type} (f : A -> bool) (l : list A) :
  existsb f l = false <-> find f l = None.
Proof.
  induction l as [| x l IH]; simpl; [tauto |].
  destruct (f x); simpl; [split; discriminate | exact IH].
Qed.

Section WithHash.

Variable hash_password : string -> string.

Lemma create_user_created (db db' : DB) (username password role : string)
  (uid : nat) :
  create_user hash_password db username password role = (Some uid, db') ->
  find (fun r => (users_username r =? username)%string) (users db) = None
  /\ uid = fresh_id (map users_id (users db)) (users_seq db)
  /\ users db' = users db ++ [mkUser uid username (hash_password password) role]
  /\ doctors db' = doctors db
  /\ doctors_seq db' = doctors_seq db
  /\ doctor_patient db' = doctor_patient db
  /\ analysis_history db' = analysis_history db.
Proof.
  unfold create_user, insert_user.
  destruct (existsb _ (users db)) eqn:E; [discriminate |].
  intros [= <- <-]. apply existsb_find_none in E. simpl. tauto.
Qed.

Lemma create_user_taken (db : DB) (username password role : string) :
  find (fun r => (users_username r =? username)%string) (users db) <> None ->
  create_user hash_password db username password role = (None, db).
Proof.
  intros H. unfold create_user, insert_user.
  destruct (existsb _ (users db)) eqn:E; [reflexivity |].
  now apply existsb_find_none in E.
Qed.

Lemma create_user_fresh (db : DB) (username password role : string) :
  find (fun r => (users_username r =? username)%string) (users db) = None ->
  exists uid db',
    create_user hash_password db username password role = (Some uid, db')
    /\ truthy (Some uid) = true.
Proof.
  intros H. unfold create_user, insert_user.
  apply existsb_find_none in H. rewrite H.
  do 2 eexists. split; [reflexivity | reflexivity].
Qed.

Lemma find_new_user (rows : list users_row) (u : users_row) :
  find (fun r => (users_username r =? users_username u)%string) rows = None ->
  find (fun r => (users_username r =? users_username u)%string) (rows ++ [u])
  = Some u.
Proof.
  intros H. rewrite find_app_none by exact H.
  simpl. now rewrite String.eqb_refl.
Qed.

Lemma find_registered (rows : list users_row) (u : users_row) :
  find (fun r => (users_username r =? users_username u)%string) (rows ++ [u])
  <> None.
Proof.
  induction rows as [| x rows IH]; simpl.
  - now rewrite String.eqb_refl.
  - destruct (users_username x =? users_username u)%string; [discriminate | exact IH].
Qed.

End WithHash.

Example login_after_register :
  let db := snd (register Samples.toy_hash empty_db Patient
                          "alice" "correct" "correct" "" "") in
  verify_user Samples.toy_hash db "alice" "correct" = Some (mkUserDict 1 "patient")
  /\ verify_user Samples.toy_hash db "alice" "wrong" = None
  /\ verify_user Samples.toy_hash db "bob" "correct" = None.
Proof. repeat split. Qed.

(** C7: after a successful [create_user u p role], [verify_user u p] returns
    the new account with that role, [verify_user u p'] returns nothing for
    every [p'] whose hash differs from the hash of [p], and [verify_user]
    returns nothing for every username that no row of the users table has. *)
Theorem register_authenticate_roundtrip :
  forall (hash_password : string -> string) (db db' : DB)
         (username password role : string) (uid : nat),
    create_user hash_password db username password role = (Some uid, db') ->
    verify_user hash_password db' username password = Some (mkUserDict uid role)
    /\ (forall password',
          hash_password password' <> hash_password password ->
          verify_user hash_password db' username password' = None)
    /\ (forall username' password',
          (forall r, In r (users db') -> users_username r <> username') ->
          verify_user hash_password db' username' password' = None).
Proof.
  intros h db db' u p role uid H.
  apply create_user_created in H as (F & _ & U & _).
  pose proof (find_new_user (users db) (mkUser uid u (h p) role) F) as N.
  simpl in N. unfold verify_user. rewrite U, N. simpl.
  split; [now rewrite String.eqb_refl |]. split.
  - intros p' D. apply not_eq_sym, String.eqb_neq in D. now rewrite D.
  - intros u' p' A.
    assert (E : find (fun r => (users_username r =? u')%string)
                     (users db ++ [mkUser uid u (h p) role]) = None).
    { apply find_none_iff. intros x Hx. apply String.eqb_neq, A. exact Hx. }
    now rewrite E.
Qed.

Lemma register_authenticate_roundtrip_witness :
  verify_user Samples.toy_hash
    (snd (create_user Samples.toy_hash empty_db "alice" "correct" "patient"))
    "alice" "correct"
  = Some (mkUserDict 1 "patient").
Proof.
  apply (proj1 (register_authenticate_roundtrip
                  Samples.toy_hash empty_db
                  (snd (create_user Samples.toy_hash empty_db "alice" "correct" "patient"))
                  "alice" "correct" "patient" 1 eq_refl)).
Defined.

End AccountFacts.

Import AccountFacts.

Module RegistrationFacts.

Lemma create_user_none (h : string -> string) (db db' : DB)
  (username password role : string) :
  create_user h db username password role = (None, db') -> db' = db.
Proof.
  unfold create_user. destruct (insert_user _ _ _ _) as [[i d] |];
    [discriminate | now intros [= <-]].
Qed.

(** What [register] does once both password checks have passed. *)
Lemma register_checked (h : string -> string) (db : DB) (role : reg_role)
  (username password full_name specialization : string) :
  6 <= String.length password ->
  register h db role username password password full_name specialization
  = let '(user_id, db1) := create_user h db username password (role_name role) in
    if truthy user_id
    then
      match role with
      | Doctor =>
          let '(created, db2) :=
            create_doctor db1 (match user_id with Some n => n | None => 0 end)
                          full_name specialization in
          if created
          then (st_success "Doctor registration successful! Please login.", db2)
          else (st_error "Error creating doctor profile", db2)
      | Patient =>
          (st_success "Patient registration successful! Please login.", db1)
      end
    else (st_error "Username already exists", db1).
Proof.
  intros L. unfold register. rewrite String.eqb_refl. cbn [negb].
  apply Nat.ltb_ge in L. now rewrite L.
Qed.

(** A registration that reports success has stored the account. *)
Lemma register_success_stores (h : string -> string) (db db' : DB)
  (role : reg_role) (username password confirm full_name specialization text : string) :
  register h db role username password confirm full_name specialization
  = (st_success text, db') ->
  find (fun r => (users_username r =? username)%string) (users db') <> None.
Proof.
  unfold register.
  destruct (negb (password =? confirm)%string); [discriminate |].
  destruct (String.length password <? 6); [discriminate |].
  destruct (create_user h db username password (role_name role)) as [o db1] eqn:C.
  destruct o as [uid |]; [| discriminate].
  apply create_user_created in C as (_ & _ & U & _).
  destruct (truthy (Some uid)); [| discriminate].
  assert (R : find (fun r => (users_username r =? username)%string) (users db1) <> None).
  { rewrite U. apply (find_registered (users db) (mkUser uid username (h password) (role_name role))). }
  destruct role.
  - now intros [= _ <-].
  - unfold create_doctor, insert_doctor.
    destruct (existsb _ (doctors db1)); [discriminate |].
    now intros [= _ <-].
Qed.

Example register_twice :
  let db1 := snd (register Samples.toy_hash empty_db Patient
                           "alice" "correct" "correct" "" "") in
  register Samples.toy_hash db1 Doctor "alice" "another1" "another1" "A" "B"
  = (st_error "Username already exists", db1).
Proof. reflexivity. Qed.

Example register_five_chars :
  register Samples.toy_hash empty_db Patient "alice" "12345" "12345" "" ""
  = (st_error "Password must be at least 6 characters long", empty_db).
Proof. reflexivity. Qed.

Example register_six_chars :
  fst (register Samples.toy_hash empty_db Patient "alice" "123456" "123456" "" "")
  = st_success "Patient registration successful! Please login.".
Proof. reflexivity. Qed.

(** C8: a username that a successful registration has taken is rejected with
    "Username already exists" and the store is left as it is; a password
    shorter than 6 characters is rejected and no account is created, with the
    length message when the confirmation matches; a password of exactly 6
    characters passes the length check, and with a free username the
    patient registration succeeds. *)
Theorem registration_error_contract :
  forall (hash_password : string -> string) (db : DB),
    (forall username p1 role1 uid db1,
        create_user hash_password db username p1 role1 = (Some uid, db1) ->
        forall p2 role2,
          create_user hash_password db1 username p2 role2 = (None, db1))
    /\ (forall role1 username p1 c1 fn1 sp1 text db1,
          register hash_password db role1 username p1 c1 fn1 sp1
          = (st_success text, db1) ->
          forall role2 p2 fn2 sp2,
            6 <= String.length p2 ->
            register hash_password db1 role2 username p2 p2 fn2 sp2
            = (st_error "Username already exists", db1))
    /\ (forall role username password confirm fn sp,
          String.length password < 6 ->
          snd (register hash_password db role username password confirm fn sp) = db
          /\ (exists reason,
                 fst (register hash_password db role username password confirm fn sp)
                 = st_error reason)
          /\ (confirm = password ->
              fst (register hash_password db role username password confirm fn sp)
              = st_error "Password must be at least 6 characters long"))
    /\ (forall role username password fn sp,
          String.length password = 6 ->
          fst (register hash_password db role username password password fn sp)
          <> st_error "Password must be at least 6 characters long"
          /\ ((forall r, In r (users db) -> users_username r <> username) ->
              exists uid db1,
                register hash_password db Patient username password password fn sp
                = (st_success "Patient registration successful! Please login.", db1)
                /\ users db1
                   = users db ++ [mkUser uid username (hash_password password) "patient"])).
Proof.
  intros h db. split; [| split; [| split]].
  - intros u p1 role1 uid db1 C p2 role2.
    apply create_user_taken.
    apply create_user_created in C as (_ & _ & U & _). rewrite U.
    apply (find_registered (users db) (mkUser uid u (h p1) role1)).
  - intros role1 u p1 c1 fn1 sp1 text db1 R role2 p2 fn2 sp2 L.
    apply register_success_stores in R.
    rewrite register_checked by exact L.
    now rewrite (create_user_taken h db1 u p2 (role_name role2) R).
  - intros role u p c fn sp L. unfold register.
    destruct (negb (p =? c)%string) eqn:M; simpl.
    + split; [reflexivity |]. split; [eauto |].
      intros ->. now rewrite String.eqb_refl in M.
    + apply Nat.ltb_lt in L. rewrite L. simpl. eauto.
  - intros role u p fn sp L. split.
    + rewrite register_checked by lia.
      destruct (create_user h db u p (role_name role)) as [o db1].
      destruct (truthy o); [| discriminate].
      destruct role; [discriminate |].
      destruct (create_doctor _ _ _ _) as [[|] db2]; discriminate.
    + intros F. rewrite register_checked by lia.
      assert (N : find (fun r => (users_username r =? u)%string) (users db) = None).
      { apply find_none_iff. intros x Hx. apply String.eqb_neq. now apply F. }
      destruct (create_user_fresh h db u p (role_name Patient) N) as (uid & db1 & C & T).
      rewrite C, T. exists uid, db1. split; [reflexivity |].
      now apply create_user_created in C as (_ & _ & U & _).
Qed.

Lemma registration_error_contract_witness :
  register Samples.toy_hash
    (snd (register Samples.toy_hash empty_db Patient "alice" "correct" "correct" "" ""))
    Patient "alice" "123456" "123456" "" ""
  = (st_error "Username already exists",
     snd (register Samples.toy_hash empty_db Patient "alice" "correct" "correct" "" "")).
Proof.
  apply (proj1 (proj2 (registration_error_contract Samples.toy_hash empty_db))
               Patient "alice" "correct" "correct" "" ""
               "Patient registration successful! Please login.").
  - reflexivity.
  - simpl. lia.
Defined.

End RegistrationFacts.

Import RegistrationFacts.

Module DoctorRegistrationFacts.

Lemma has_profile_row (db : DB) (uid : nat) :
  has_profile db uid = true
  <-> exists d, In d (doctors db) /\ doctors_user_id d = uid.
Proof.
  unfold has_profile. rewrite existsb_exists.
  split; intros [d [Hd E]]; exists d; split; trivial; now apply Nat.eqb_eq.
Qed.

(** The three ways a doctor registration can end. *)
Lemma register_doctor_cases (h : string -> string) (db db' : DB)
  (username password confirm full_name specialization : string) (msg : st_msg) :
  register h db Doctor username password confirm full_name specialization
  = (msg, db') ->
  (exists uid did,
      msg = st_success "Doctor registration successful! Please login."
      /\ users db' = users db ++ [mkUser uid username (h password) "doctor"]
      /\ doctors db' = doctors db ++ [mkDoctor did uid full_name specialization]
      /\ ~ In uid (map users_id (users db)))
  \/ (exists uid,
         msg = st_error "Error creating doctor profile"
         /\ users db' = users db ++ [mkUser uid username (h password) "doctor"]
         /\ doctors db' = doctors db
         /\ has_profile db uid = true
         /\ ~ In uid (map users_id (users db)))
  \/ (db' = db
      /\ (msg = st_error "Passwords do not match"
          \/ msg = st_error "Password must be at least 6 characters long"
          \/ msg = st_error "Username already exists")).
Proof.
  unfold register.
  destruct (negb (password =? confirm)%string);
    [intros [= <- <-]; right; right; tauto |].
  destruct (String.length password <? 6);
    [intros [= <- <-]; right; right; tauto |].
  destruct (create_user h db username password (role_name Doctor))
    as [o db1] eqn:C.
  destruct o as [uid |].
  - apply create_user_created in C as (_ & F & U & D & _).
    assert (N : ~ In uid (map users_id (users db)))
      by (rewrite F; apply fresh_id_new).
    assert (T : truthy (Some uid) = true) by now rewrite F.
    rewrite T. unfold create_doctor, insert_doctor.
    destruct (existsb (fun r => doctors_user_id r =? uid) (doctors db1)) eqn:E.
    + intros [= <- <-]. right; left. exists uid.
      unfold has_profile. rewrite <- D. tauto.
    + intros [= <- <-]. left. do 2 eexists. simpl. rewrite <- D.
      split; [reflexivity |]. split; [exact U |]. split; [reflexivity | exact N].
  - apply create_user_none in C. subst db1. simpl.
    intros [= <- <-]. right; right. tauto.
Qed.

Example register_stale :
  register Samples.toy_hash Samples.db_stale_profile Doctor
           "drcarol" "secret1" "secret1" "Carol" "ENT"
  = (st_error "Error creating doctor profile",
     mkDB [mkUser 1 "drcarol" "h:secret1" "doctor"] 1
          [mkDoctor 1 1 "Old" "GP"] 1 [] [] 0).
Proof. reflexivity. Qed.

(** The claim of C2 fails on the code: with a doctors row already present for
    the id the new account receives, the registration reports a profile
    error and the account is stored all the same. *)
Lemma doctor_registration_not_atomic :
  ~ (forall (hash_password : string -> string) (db db' : DB)
            (username password full_name specialization : string) (msg : st_msg),
       register hash_password db Doctor username password password
                full_name specialization = (msg, db') ->
       (exists u d, users db' = users db ++ [u]
                    /\ doctors db' = doctors db ++ [d]
                    /\ doctors_user_id d = users_id u)
       \/ users db' = users db).
Proof.
  intros H.
  destruct (H Samples.toy_hash Samples.db_stale_profile _
              "drcarol" "secret1" "Carol" "ENT" _ eq_refl)
    as [(u & d & _ & D & _) | U].
  - apply (f_equal (@List.length doctors_row)) in D.
    rewrite length_app in D. simpl in D. lia.
  - discriminate U.
Qed.

(** Registrations keep every doctors row attached to an existing user. *)
Lemma register_preserves_references (h : string -> string) (db db' : DB)
  (role : reg_role) (username password confirm full_name specialization : string)
  (msg : st_msg) :
  doctors_reference_users db ->
  register h db role username password confirm full_name specialization
  = (msg, db') ->
  doctors_reference_users db'.
Proof.
  intros R H. destruct role.
  - unfold register in H.
    destruct (negb (password =? confirm)%string); [now injection H as _ <- |].
    destruct (String.length password <? 6); [now injection H as _ <- |].
    destruct (create_user h db username password (role_name Patient))
      as [o db1] eqn:C.
    destruct o as [uid |].
    + apply create_user_created in C as (_ & _ & U & D & _).
      assert (E : db' = db1) by (destruct (truthy (Some uid)); now injection H).
      subst db'. intros d Hd. rewrite D in Hd. rewrite U, map_app, in_app_iff.
      left. now apply R.
    + apply create_user_none in C. subst db1. simpl in H. now injection H as _ <-.
  - apply register_doctor_cases in H
      as [(uid & did & _ & U & D & _) | [(uid & _ & U & D & _) | [-> _]]];
      trivial; intros d Hd; rewrite U, map_app, in_app_iff; rewrite D in Hd.
    + apply in_app_iff in Hd as [Hd | [<- | []]]; [left; now apply R |].
      right. now left.
    + left. now apply R.
Qed.

(** C2 (amended): a doctor registration is two commits.  It ends with both
    rows created, or with nothing written, or with the profile INSERT
    rejected because the doctors table already holds a row for the new user
    id, and then the account stays stored.  Every account it stores has a
    doctors row for its id afterwards, and on a store whose doctors rows all
    refer to existing users the rejection does not happen. *)
Theorem register_doctor_outcomes :
  forall (hash_password : string -> string) (db db' : DB)
         (username password confirm full_name specialization : string)
         (msg : st_msg),
    register hash_password db Doctor username password confirm
             full_name specialization = (msg, db') ->
    ((exists uid did,
         msg = st_success "Doctor registration successful! Please login."
         /\ users db' = users db ++ [mkUser uid username (hash_password password) "doctor"]
         /\ doctors db' = doctors db ++ [mkDoctor did uid full_name specialization])
     \/ (exists uid,
            msg = st_error "Error creating doctor profile"
            /\ users db' = users db ++ [mkUser uid username (hash_password password) "doctor"]
            /\ doctors db' = doctors db
            /\ has_profile db uid = true)
     \/ (db' = db
         /\ (msg = st_error "Passwords do not match"
             \/ msg = st_error "Password must be at least 6 characters long"
             \/ msg = st_error "Username already exists")))
    /\ (forall u, In u (users db') -> ~ In u (users db) ->
                  has_profile db' (users_id u) = true)
    /\ (doctors_reference_users db ->
        msg <> st_error "Error creating doctor profile").
Proof.
  intros h db db' u p c fn sp msg H.
  apply register_doctor_cases in H
    as [(uid & did & -> & U & D & N) | [(uid & -> & U & D & P & N) | [-> M]]].
  - split; [left; eauto |]. split; [| discriminate].
    intros x Hx Nx. rewrite U in Hx. apply in_app_iff in Hx as [Hx | [<- | []]];
      [contradiction |].
    apply has_profile_row. exists (mkDoctor did uid fn sp).
    split; [| reflexivity]. rewrite D, in_app_iff. right. now left.
  - split; [right; left; eauto |]. split.
    + intros x Hx Nx. rewrite U in Hx. apply in_app_iff in Hx as [Hx | [<- | []]];
        [contradiction |].
      unfold has_profile in *. now rewrite D.
    + intros R _. apply has_profile_row in P as (d & Hd & <-).
      apply N, R, Hd.
  - split; [right; right; tauto |]. split; [intros x Hx Nx; contradiction |].
    intros _. destruct M as [-> | [-> | ->]]; discriminate.
Qed.

Lemma register_doctor_outcomes_witness :
  let db' := snd (register Samples.toy_hash empty_db Doctor
                           "drbob" "secret1" "secret1" "Bob" "GP") in
  (forall u, In u (users db') -> ~ In u (users empty_db) ->
             has_profile db' (users_id u) = true)
  /\ (doctors_reference_users empty_db ->
      st_success "Doctor registration successful! Please login."
      <> st_error "Error creating doctor profile").
Proof.
  exact (proj2 (register_doctor_outcomes
                  Samples.toy_hash empty_db _
                  "drbob" "secret1" "secret1" "Bob" "GP" _ eq_refl)).
Defined.

End DoctorRegistrationFacts.

(** ** The review workflow *)

Module ReviewFacts.

Import HistoryFacts.



Example dashboard_unassigned :
  doctor_interface Samples.db_unassigned 2 Samples.approve_1 20
  = (Val [st_info "No patients assigned yet"], Samples.db_unassigned).
Proof. reflexivity. Qed.

Example dashboard_without_profile :
  doctor_interface Samples.db_unassigned 1 Samples.approve_1 20
  = (Val [st_error "Doctor account not properly configured"],
     Samples.db_unassigned).
Proof. reflexivity. Qed.

Example dashboard_orphan_account :
  let db := snd (register Samples.toy_hash Samples.db_stale_profile Doctor
                          "drcarol" "secret1" "secret1" "Carol" "ENT") in
  get_doctor_id db 1 = Some 1
  /\ map doctors_full_name (doctors db) = ["Old"].
Proof. repeat split. Qed.




End ReviewFacts.

(* ===================================================================== *)
(** * Part III: further properties of the code                             *)
(* ===================================================================== *)

Import HistoryFacts ReviewFacts DoctorRegistrationFacts Pages Invariants.

(** ** Extraction and PDF text *)

Module ExtractionMore.

(** X1: The extractor returns no term twice, and a term is returned exactly
    when it is the text of a kept entity or of a kept noun phrase. *)
Theorem extracted_terms_distinct_and_sound :
  forall (nlp : string -> Doc) (input : string) (terms : list string),
    extract_medical_keywords nlp input = Val terms ->
    NoDup terms
    /\ (forall t,
          In t terms
          <-> (exists ent, In ent (ents (nlp input))
                           /\ keeps_entity ent = true /\ text ent = t)
              \/ (exists chunk, In chunk (noun_chunks (nlp input))
                                /\ keeps_phrase chunk = true /\ text chunk = t)).
Proof.
  intros nlp input terms H.
  rewrite ExtractorFacts.extract_cases in H.
  destruct (existsb hits_index_error (ents (nlp input))); [discriminate |].
  injection H as <-. unfold extract_spec.
  split; [apply ExtractorFacts.first_occurrences_NoDup |].
  intros t. rewrite ExtractorFacts.first_occurrences_In, in_app_iff, !in_map_iff.
  split.
  - intros [(e & E & I) | (c & E & I)]; apply filter_In in I as [I K]; eauto.
  - intros [(e & I & K & E) | (c & I & K & E)]; [left | right];
      eexists; (split; [exact E |]); apply filter_In; now split.
Qed.

Lemma extracted_terms_distinct_and_sound_witness :
  NoDup ["WHO"; "chronic fever"; "Paris"; "the Pain"].
Proof.
  exact (proj1 (extracted_terms_distinct_and_sound
                  (fun _ => doc_sample) "x" _ eq_refl)).
Defined.

Lemma append_assoc (a b c : string) :
  ((a ++ b) ++ c)%string = (a ++ (b ++ c))%string.
Proof. induction a as [| x a IH]; simpl; congruence. Qed.

Lemma append_length (a b : string) :
  String.length (a ++ b) = String.length a + String.length b.
Proof. induction a as [| x a IH]; simpl; congruence. Qed.

Lemma pdf_text_from (pages : list string) (acc : string) :
  fold_left (fun text page => (text ++ (page ++ newline))%string) pages acc
  = (acc ++ extract_text_from_pdf pages)%string.
Proof.
  unfold extract_text_from_pdf. revert acc.
  induction pages as [| p pages IH]; intros acc; simpl.
  - now rewrite append_empty_r.
  - rewrite IH, (IH (p ++ newline)%string). apply append_assoc.
Qed.

Lemma pdf_text_cons (p : string) (pages : list string) :
  extract_text_from_pdf (p :: pages)
  = (p ++ newline ++ extract_text_from_pdf pages)%string.
Proof.
  unfold extract_text_from_pdf at 1. simpl. rewrite pdf_text_from.
  apply append_assoc.
Qed.

Lemma pdf_text_empty (pages : list string) :
  extract_text_from_pdf pages = "" <-> pages = [].
Proof.
  split; [| now intros ->].
  destruct pages as [| p pages]; [reflexivity |].
  rewrite pdf_text_cons. destruct p; discriminate.
Qed.

Example pdf_two_pages :
  extract_text_from_pdf ["Fever"; ""] = ("Fever" ++ newline ++ newline)%string.
Proof. reflexivity. Qed.

(** X2: The text of a PDF is the text of its pages, each followed by one
    newline: the text of two PDFs laid end to end is the two texts appended,
    its length counts one more character per page, and it is empty only for
    a PDF without pages. *)
Theorem pdf_text_pages :
  forall pages more : list string,
    extract_text_from_pdf (pages ++ more)
    = (extract_text_from_pdf pages ++ extract_text_from_pdf more)%string
    /\ String.length (extract_text_from_pdf pages)
       = list_sum (map String.length pages) + List.length pages
    /\ (extract_text_from_pdf pages = "" <-> pages = []).
Proof.
  intros pages more. split; [| split].
  - induction pages as [| p pages IH]; [reflexivity |].
    simpl app. rewrite !pdf_text_cons, IH. now rewrite !append_assoc.
  - induction pages as [| p pages IH]; [reflexivity |].
    rewrite pdf_text_cons, !append_length, IH. simpl. lia.
  - apply pdf_text_empty.
Qed.

End ExtractionMore.

(** ** Doctors and assignments *)

Module AssignmentFacts.

Lemma NoDup_snoc {A : Type} (l : list A) (x : A) :
  NoDup l -> ~ In x l -> NoDup (l ++ [x]).
Proof.
  intros ND N. apply NoDup_app; trivial.
  - repeat constructor. intros [].
  - intros a Ha [<- | []]. contradiction.
Qed.

Lemma find_app_miss {A : Type} (f : A -> bool) (l : list A) (x : A) :
  f x = false -> find f (l ++ [x]) = find f l.
Proof.
  intros H. induction l as [| y l IH]; simpl; [now rewrite H |].
  destruct (f y); [reflexivity | exact IH].
Qed.

(** In a list without two rows of the same key, a key names one row. *)
Lemma unique_by {A B : Type} (f : A -> B) (l : list A) (a b : A) :
  NoDup (map f l) -> In a l -> In b l -> f a = f b -> a = b.
Proof.
  induction l as [| x l IH]; simpl; [contradiction |].
  intros ND Ha Hb E. inversion ND as [| ? ? Nx ND']; subst.
  destruct Ha as [<- | Ha], Hb as [<- | Hb]; trivial.
  - exfalso. apply Nx. rewrite E. now apply in_map.
  - exfalso. apply Nx. rewrite <- E. now apply in_map.
  - now apply IH.
Qed.

Lemma assigned_row (db : DB) (d p : nat) :
  assigned db d p = true
  <-> exists dp, In dp (doctor_patient db)
                 /\ dp_doctor_id dp = d /\ dp_patient_id dp = p.
Proof.
  unfold assigned. rewrite existsb_exists.
  split; intros (dp & I & H); exists dp; split; trivial.
  - apply andb_true_iff in H as [H1 H2]. now apply Nat.eqb_eq in H1, H2.
  - destruct H as [-> ->]. now rewrite !Nat.eqb_refl.
Qed.

Example assign_twice :
  assign_doctor Samples.db_assigned 1 1 12 = (false, Samples.db_assigned).
Proof. reflexivity. Qed.

Example assign_unknown_ids :
  fst (assign_doctor Samples.db_unassigned 77 99 12) = true
  /\ get_doctor_patients (snd (assign_doctor Samples.db_unassigned 77 99 12)) 77
     = [].
Proof. split; reflexivity. Qed.

Lemma assigned_after_assign (db : DB) (d0 p0 : nat) (now : time) (d p : nat) :
  assigned (snd (assign_doctor db d0 p0 now)) d p
  = assigned db d p || ((d =? d0) && (p =? p0)).
Proof.
  unfold assign_doctor, insert_doctor_patient.
  fold (assigned db d0 p0).
  destruct (assigned db d0 p0) eqn:A; simpl.
  - destruct ((d =? d0) && (p =? p0)) eqn:E; [| now rewrite orb_false_r].
    apply andb_true_iff in E as [E1 E2]. apply Nat.eqb_eq in E1, E2. subst.
    now rewrite A.
  - unfold assigned. simpl. rewrite existsb_app. simpl.
    now rewrite orb_false_r, (Nat.eqb_sym d0 d), (Nat.eqb_sym p0 p).
Qed.

Lemma users_after_assign (db : DB) (d0 p0 : nat) (now : time) :
  users (snd (assign_doctor db d0 p0 now)) = users db.
Proof.
  unfold assign_doctor, insert_doctor_patient.
  now destruct (existsb _ (doctor_patient db)).
Qed.

(** X3: [assign_doctor] succeeds exactly when the pair is not yet in the table,
    whether or not the ids resolve to a doctor and a user; a refused
    assignment leaves the store as it is, and a successful one adds this
    pair and no other. *)
Theorem assign_doctor_effect :
  forall (db : DB) (doctor_id patient_id : nat) (now : time),
    fst (assign_doctor db doctor_id patient_id now)
    = negb (assigned db doctor_id patient_id)
    /\ (assigned db doctor_id patient_id = true ->
        snd (assign_doctor db doctor_id patient_id now) = db)
    /\ (forall d p,
          assigned (snd (assign_doctor db doctor_id patient_id now)) d p
          = assigned db d p || ((d =? doctor_id) && (p =? patient_id)))
    /\ users (snd (assign_doctor db doctor_id patient_id now)) = users db
    /\ doctors (snd (assign_doctor db doctor_id patient_id now)) = doctors db
    /\ analysis_history (snd (assign_doctor db doctor_id patient_id now))
       = analysis_history db.
Proof.
  intros db d0 p0 now.
  split; [| split; [| split; [intros; apply assigned_after_assign |]]];
    unfold assign_doctor, insert_doctor_patient;
    fold (assigned db d0 p0);
    destruct (assigned db d0 p0); simpl; repeat split; discriminate.
Qed.

Lemma assign_doctor_effect_witness :
  snd (assign_doctor Samples.db_assigned 1 1 12) = Samples.db_assigned.
Proof.
  apply (proj1 (proj2 (assign_doctor_effect Samples.db_assigned 1 1 12))).
  reflexivity.
Defined.

Lemma patients_listed (db : DB) (d pid : nat) (name : string) :
  In (pid, name) (get_doctor_patients db d)
  <-> (exists u, In u (users db) /\ users_id u = pid /\ users_username u = name)
      /\ assigned db d pid = true.
Proof.
  unfold get_doctor_patients. rewrite in_flat_map, assigned_row. split.
  - intros (u & Iu & H). apply in_map_iff in H as (dp & [= <- <-] & H).
    apply filter_In in H as (Idp & C). apply andb_true_iff in C as [C1 C2].
    apply Nat.eqb_eq in C1, C2. split; eauto.
  - intros ((u & Iu & <- & <-) & (dp & Idp & Hd & Hp)).
    exists u. split; [exact Iu |]. apply in_map_iff. exists dp.
    split; [reflexivity |]. apply filter_In. split; [exact Idp |].
    now rewrite Hd, Hp, !Nat.eqb_refl.
Qed.

(** With the key of one pair, a filter for that pair keeps at most one row. *)
Lemma one_row_per_pair (dps : list doctor_patient_row) (d p : nat) :
  NoDup (map (fun dp => (dp_doctor_id dp, dp_patient_id dp)) dps) ->
  List.length (filter (fun dp => (p =? dp_patient_id dp)
                                 && (dp_doctor_id dp =? d)) dps) <= 1.
Proof.
  induction dps as [| x dps IH]; simpl; [lia |].
  intros ND. inversion ND as [| ? ? Nx ND']; subst.
  destruct ((p =? dp_patient_id x) && (dp_doctor_id x =? d)) eqn:E;
    [| now apply IH].
  apply andb_true_iff in E as [E1 E2]. apply Nat.eqb_eq in E1, E2.
  assert (Z : filter (fun dp => (p =? dp_patient_id dp)
                                && (dp_doctor_id dp =? d)) dps = []).
  { destruct (filter _ dps) as [| y ys] eqn:F; [reflexivity |].
    exfalso. apply Nx.
    assert (Iy : In y (filter (fun dp => (p =? dp_patient_id dp)
                                         && (dp_doctor_id dp =? d)) dps))
      by (rewrite F; now left).
    apply filter_In in Iy as [Iy C]. apply andb_true_iff in C as [C1 C2].
    apply Nat.eqb_eq in C1, C2. apply in_map_iff. exists y.
    split; [| exact Iy]. congruence. }
  rewrite Z. simpl. lia.
Qed.

(** X4: The patient list of a doctor holds a pair exactly when a users row has
    that id and name and an assignment pairs the doctor with the id; an
    assignment to an id without users row lists nothing.  Under the key
    constraints of the schema no patient is listed twice. *)
Theorem get_doctor_patients_lists_assigned_users :
  forall (db : DB) (doctor_id : nat),
    (forall pid name,
        In (pid, name) (get_doctor_patients db doctor_id)
        <-> (exists u, In u (users db)
                       /\ users_id u = pid /\ users_username u = name)
            /\ assigned db doctor_id pid = true)
    /\ (key_constraints db -> NoDup (get_doctor_patients db doctor_id)).
Proof.
  intros db d. split; [intros; apply patients_listed |].
  intros (Uid & _ & _ & _ & Pairs & _).
  unfold get_doctor_patients.
  induction (users db) as [| u us IH]; simpl; [constructor |].
  inversion Uid as [| ? ? Nu Uid']; subst.
  apply NoDup_app.
  - pose proof (one_row_per_pair (doctor_patient db) d (users_id u) Pairs) as L.
    destruct (filter _ (doctor_patient db)) as [| a [| b l]]; simpl in *;
      [constructor | repeat constructor; intros [] | lia].
  - now apply IH.
  - intros [pid name] H1 H2.
    apply in_map_iff in H1 as (dp & [= <- <-] & _).
    apply in_flat_map in H2 as (v & Iv & H2).
    apply in_map_iff in H2 as (dp' & [= E _] & _).
    apply Nu. rewrite <- E. now apply in_map.
Qed.

Lemma get_doctor_patients_lists_assigned_users_witness :
  NoDup (get_doctor_patients Samples.db_assigned 1).
Proof.
  apply (proj2 (get_doctor_patients_lists_assigned_users Samples.db_assigned 1)).
  unfold key_constraints. simpl.
  repeat split; repeat constructor; simpl; intuition discriminate.
Defined.

(** X5: After a successful [assign_doctor] the doctor's patient list gains the
    patient, provided a users row has that id, and nothing else changes in
    any doctor's list. *)
Theorem assign_then_list_patients :
  forall (db db' : DB) (doctor_id patient_id : nat) (now : time),
    assign_doctor db doctor_id patient_id now = (true, db') ->
    forall d pid name,
      In (pid, name) (get_doctor_patients db' d)
      <-> In (pid, name) (get_doctor_patients db d)
          \/ (d = doctor_id /\ pid = patient_id
              /\ exists u, In u (users db)
                           /\ users_id u = patient_id
                           /\ users_username u = name).
Proof.
  intros db db' d0 p0 now H d pid name.
  pose proof (assigned_after_assign db d0 p0 now d pid) as A.
  pose proof (users_after_assign db d0 p0 now) as U.
  rewrite H in A, U. simpl in A, U.
  rewrite !patients_listed, A, U, orb_true_iff, andb_true_iff, !Nat.eqb_eq.
  split.
  - intros (Hu & [Ha | [-> ->]]); [left; tauto | right; tauto].
  - intros [(Hu & Ha) | (-> & -> & Hu)]; tauto.
Qed.

Lemma assign_then_list_patients_witness :
  In (1, "alice") (get_doctor_patients Samples.db_assigned 1).
Proof.
  apply (proj2 (assign_then_list_patients
                  Samples.db_unassigned Samples.db_assigned 1 1 11 eq_refl
                  1 1 "alice")).
  right. repeat split.
  exists (mkUser 1 "alice" (Samples.toy_hash "correct") "patient").
  repeat split. now left.
Defined.

Example profile_then_id :
  get_doctor_id (snd (create_doctor Samples.db_unassigned 1 "Al" "GP")) 1
  = Some 2.
Proof. reflexivity. Qed.

(** X6: [create_doctor] succeeds exactly when no doctors row has the user id;
    it then makes [get_doctor_id] resolve the user id to a fresh, non-zero
    doctor id, which the dashboard accepts, and changes the answer for no
    other user; a refused profile leaves the store as it is. *)
Theorem create_doctor_then_get_doctor_id :
  forall (db : DB) (user_id : nat) (full_name specialization : string),
    fst (create_doctor db user_id full_name specialization)
    = negb (has_profile db user_id)
    /\ (has_profile db user_id = true ->
        snd (create_doctor db user_id full_name specialization) = db)
    /\ (has_profile db user_id = false ->
        exists doctor_id,
          get_doctor_id (snd (create_doctor db user_id full_name specialization))
                        user_id = Some doctor_id
          /\ truthy (Some doctor_id) = true
          /\ ~ In doctor_id (map doctors_id (doctors db)))
    /\ (forall other,
          other <> user_id ->
          get_doctor_id (snd (create_doctor db user_id full_name specialization))
                        other
          = get_doctor_id db other).
Proof.
  intros db uid fn sp. unfold create_doctor, insert_doctor.
  fold (has_profile db uid).
  destruct (has_profile db uid) eqn:P; simpl.
  - repeat split; discriminate.
  - split; [reflexivity |]. split; [discriminate |]. split.
    + intros _. eexists. unfold get_doctor_id. simpl.
      rewrite find_app_none by now apply existsb_find_none.
      simpl. rewrite Nat.eqb_refl. split; [reflexivity |].
      split; [reflexivity | apply fresh_id_new].
    + intros other N. unfold get_doctor_id. simpl.
      rewrite find_app_miss; [reflexivity |].
      simpl. apply Nat.eqb_neq. congruence.
Qed.

Lemma create_doctor_then_get_doctor_id_witness :
  exists doctor_id,
    get_doctor_id (snd (create_doctor Samples.db_unassigned 1 "Al" "GP")) 1
    = Some doctor_id
    /\ truthy (Some doctor_id) = true
    /\ ~ In doctor_id (map doctors_id (doctors Samples.db_unassigned)).
Proof.
  apply (proj1 (proj2 (proj2 (create_doctor_then_get_doctor_id
                                Samples.db_unassigned 1 "Al" "GP")))).
  reflexivity.
Defined.

End AssignmentFacts.

Import AssignmentFacts.

(** ** Records under review and in the history *)

Module RecordFacts.

Lemma update_row_submitted (i : nat) (s n : string) (t : time) (r : analysis_row) :
  submitted (update_row i s n t r) = submitted r.
Proof. unfold update_row. now destruct (ah_id r =? i). Qed.

Lemma update_row_twice (i : nat) (s1 n1 s2 n2 : string) (t1 t2 : time)
  (r : analysis_row) :
  update_row i s2 n2 t2 (update_row i s1 n1 t1 r) = update_row i s2 n2 t2 r.
Proof.
  unfold update_row. destruct (ah_id r =? i) eqn:E; simpl; now rewrite E.
Qed.

Lemma update_row_swap (i j : nat) (s1 n1 s2 n2 : string) (t1 t2 : time)
  (r : analysis_row) :
  i <> j ->
  update_row j s2 n2 t2 (update_row i s1 n1 t1 r)
  = update_row i s1 n1 t1 (update_row j s2 n2 t2 r).
Proof.
  intros N. unfold update_row.
  destruct (ah_id r =? i) eqn:E, (ah_id r =? j) eqn:F; simpl;
    rewrite ?E, ?F; trivial.
  apply Nat.eqb_eq in E, F. congruence.
Qed.

Lemma update_rows (db : DB) (i : nat) (s n : string) (t : time) :
  analysis_history (update_analysis_status db i s n t)
  = map (update_row i s n t) (analysis_history db).
Proof. reflexivity. Qed.

Lemma update_as_rows (db : DB) (i : nat) (s n : string) (t : time) :
  update_analysis_status db i s n t
  = set_analysis_history db (map (update_row i s n t) (analysis_history db)).
Proof. reflexivity. Qed.

(** X7: A review writes the three review columns only: the submitted columns
    of every record, and so the number and order of the records, stay as
    they are.  Of two reviews of the same record the later one wins
    (re-applying a review changes nothing), and reviews of different
    records can be made in either order. *)
Theorem review_updates_compose :
  forall (db : DB) (i j : nat) (s1 n1 s2 n2 : string) (t1 t2 : time),
    map submitted (analysis_history (update_analysis_status db i s1 n1 t1))
    = map submitted (analysis_history db)
    /\ update_analysis_status (update_analysis_status db i s1 n1 t1) i s2 n2 t2
       = update_analysis_status db i s2 n2 t2
    /\ (i <> j ->
        update_analysis_status (update_analysis_status db i s1 n1 t1) j s2 n2 t2
        = update_analysis_status (update_analysis_status db j s2 n2 t2) i s1 n1 t1).
Proof.
  intros. split; [| split].
  - rewrite update_rows, map_map. apply map_ext. intros r. apply update_row_submitted.
  - rewrite (update_as_rows (update_analysis_status db i s1 n1 t1)).
    rewrite update_rows, map_map.
    rewrite (map_ext _ _ (update_row_twice i s1 n1 s2 n2 t1 t2)).
    reflexivity.
  - intros N.
    rewrite (update_as_rows (update_analysis_status db i s1 n1 t1)),
            (update_as_rows (update_analysis_status db j s2 n2 t2)).
    rewrite !update_rows, !map_map.
    rewrite (map_ext _ _ (fun r => update_row_swap i j s1 n1 s2 n2 t1 t2 r N)).
    reflexivity.
Qed.

Lemma review_updates_compose_witness :
  update_analysis_status
    (update_analysis_status Samples.db_unassigned 1 "approved" "a" 20)
    7 "pending" "b" 30
  = update_analysis_status
      (update_analysis_status Samples.db_unassigned 7 "pending" "b" 30)
      1 "approved" "a" 20.
Proof.
  apply (proj2 (proj2 (review_updates_compose
                         Samples.db_unassigned 1 7 "approved" "a" "pending" "b"
                         20 30))).
  discriminate.
Defined.

(** *** History after a save or a review *)

Lemma order_newest_last (l : list analysis_row) (n : analysis_row) :
  (forall r, In r l -> ah_analysis_date r < ah_analysis_date n) ->
  order_by_date_desc (l ++ [n]) = n :: order_by_date_desc l.
Proof.
  induction l as [| x l IH]; intros H; simpl; [reflexivity |].
  rewrite IH by (intros r Hr; apply H; now right). simpl.
  assert (L : (ah_analysis_date n <=? ah_analysis_date x) = false).
  { apply Nat.leb_gt. apply H. now left. }
  now rewrite L.
Qed.

Lemma insert_desc_map (f : analysis_row -> analysis_row) (r : analysis_row)
  (l : list analysis_row) :
  (forall x, ah_analysis_date (f x) = ah_analysis_date x) ->
  insert_desc (f r) (map f l) = map f (insert_desc r l).
Proof.
  intros D. induction l as [| x l IH]; simpl; [reflexivity |].
  rewrite !D. destruct (ah_analysis_date x <=? ah_analysis_date r); simpl;
    [reflexivity | now rewrite IH].
Qed.

Lemma order_map (f : analysis_row -> analysis_row) (l : list analysis_row) :
  (forall x, ah_analysis_date (f x) = ah_analysis_date x) ->
  order_by_date_desc (map f l) = map f (order_by_date_desc l).
Proof.
  intros D. induction l as [| x l IH]; simpl; [reflexivity |].
  now rewrite IH, insert_desc_map.
Qed.

Lemma filter_owner_map (f : analysis_row -> analysis_row) (u : nat)
  (l : list analysis_row) :
  (forall x, ah_user_id (f x) = ah_user_id x) ->
  filter (fun r => ah_user_id r =? u) (map f l)
  = map f (filter (fun r => ah_user_id r =? u) l).
Proof.
  intros O. induction l as [| x l IH]; simpl; [reflexivity |].
  rewrite O. destruct (ah_user_id x =? u); simpl; now rewrite IH.
Qed.

Lemma select_history_update (db : DB) (i u : nat) (s n : string) (t : time) :
  select_history (update_analysis_status db i s n t) u
  = map (update_row i s n t) (select_history db u).
Proof.
  unfold select_history. rewrite update_rows.
  rewrite filter_owner_map, order_map; trivial;
    intros x; unfold update_row; now destruct (ah_id x =? i).
Qed.

Example history_after_save :
  get_user_history_4
    (save_analysis Samples.db_unassigned 1 "cough" "s2" "r2" 20) 1
  = [(20, "cough", "s2", "r2"); (10, "fever", "s", "r")].
Proof. reflexivity. Qed.

Lemma history4_date (x y : analysis_row) :
  history4_of x = history4_of y -> ah_analysis_date x = ah_analysis_date y.
Proof. unfold history4_of. now intros [= H _ _ _]. Qed.

Lemma insert_desc_same_columns (x y : analysis_row) (a b : list analysis_row) :
  history4_of x = history4_of y ->
  map history4_of a = map history4_of b ->
  map history4_of (insert_desc x a) = map history4_of (insert_desc y b).
Proof.
  intros Hxy. revert b. induction a as [| p a IH]; intros [| q b] H;
    cbn [map insert_desc] in *; try discriminate.
  - now rewrite Hxy.
  - assert (Hpq : history4_of p = history4_of q) by congruence.
    assert (Hab : map history4_of a = map history4_of b) by congruence.
    rewrite (history4_date _ _ Hxy), (history4_date _ _ Hpq).
    destruct (ah_analysis_date q <=? ah_analysis_date y); cbn [map].
    + now rewrite Hxy, Hpq, Hab.
    + rewrite Hpq. f_equal. now apply IH.
Qed.

Lemma order_same_columns (a b : list analysis_row) :
  map history4_of a = map history4_of b ->
  map history4_of (order_by_date_desc a) = map history4_of (order_by_date_desc b).
Proof.
  revert b. induction a as [| x a IH]; intros [| y b] H;
    cbn [map order_by_date_desc] in *; try discriminate; [reflexivity |].
  apply insert_desc_same_columns; [congruence |].
  apply IH. congruence.
Qed.

Lemma history_ignores_status (db : DB) (u : nat) (m s r : string) (t : time)
  (st st' : option string) (v : nat) :
  get_user_history_4 (insert_analysis db u t m s r st) v
  = get_user_history_4 (insert_analysis db u t m s r st') v.
Proof.
  unfold get_user_history_4, select_history.
  rewrite !insert_analysis_rows, !filter_app. simpl.
  destruct (u =? v); simpl; [| reflexivity].
  apply order_same_columns. now rewrite !map_app.
Qed.

(** X8: A record saved at a time later than all earlier records of the patient
    heads the history [get_user_history] returns for the patient, above the
    unchanged earlier entries, and the history of every other patient stays
    as it is.  This holds for either definition of [save_analysis], the four
    columns of the history not showing the status. *)
Theorem saved_record_heads_history :
  forall (db : DB) (user_id : nat) (medical_terms summary recommendations : string)
         (now : time),
    (forall r, In r (analysis_history db) -> ah_user_id r = user_id ->
               ah_analysis_date r < now) ->
    get_user_history_4
      (save_analysis db user_id medical_terms summary recommendations now)
      user_id
    = (now, medical_terms, summary, recommendations)
      :: get_user_history_4 db user_id
    /\ (forall other,
          other <> user_id ->
          get_user_history_4
            (save_analysis db user_id medical_terms summary recommendations now)
            other
          = get_user_history_4 db other)
    /\ (forall column_default anyone,
          get_user_history_4
            (save_analysis_nostatus column_default db user_id medical_terms
                                    summary recommendations now)
            anyone
          = get_user_history_4
              (save_analysis db user_id medical_terms summary recommendations now)
              anyone).
Proof.
  intros db u m s r now Later. split; [| split].
  - unfold get_user_history_4, select_history, save_analysis.
    rewrite insert_analysis_rows, filter_app. simpl. rewrite Nat.eqb_refl.
    rewrite order_newest_last; [reflexivity |].
    intros x Hx. apply filter_In in Hx as [Hx Ux]. apply Nat.eqb_eq in Ux.
    simpl. now apply Later.
  - intros other N. unfold get_user_history_4, select_history, save_analysis.
    rewrite insert_analysis_rows, filter_app. simpl.
    assert (E : (u =? other) = false) by (apply Nat.eqb_neq; congruence).
    rewrite E. now rewrite app_nil_r.
  - intros d v. apply history_ignores_status.
Qed.

Lemma saved_record_heads_history_witness :
  get_user_history_4
    (save_analysis Samples.db_unassigned 1 "cough" "s2" "r2" 20) 1
  = (20, "cough", "s2", "r2") :: get_user_history_4 Samples.db_unassigned 1.
Proof.
  apply (proj1 (saved_record_heads_history
                  Samples.db_unassigned 1 "cough" "s2" "r2" 20
                  ltac:(simpl; intros r [<- | []] _; simpl; lia))).
Defined.

Lemma history4_update_row (i : nat) (s n : string) (t : time) (r : analysis_row) :
  history4_of (update_row i s n t r) = history4_of r.
Proof. unfold update_row. now destruct (ah_id r =? i). Qed.

(** X9: A review never shows in the history: the rows selected for a patient
    keep their order, the reviewed record being rewritten in place, and what
    [get_user_history] returns for any patient is the same before and after
    [update_analysis_status], its four columns not being review columns. *)
Theorem review_keeps_history_order :
  forall (db : DB) (analysis_id user_id : nat) (status doctor_notes : string)
         (now : time),
    select_history (update_analysis_status db analysis_id status doctor_notes now)
                   user_id
    = map (update_row analysis_id status doctor_notes now)
          (select_history db user_id)
    /\ get_user_history_4
         (update_analysis_status db analysis_id status doctor_notes now) user_id
       = get_user_history_4 db user_id
    /\ get_user_history
         (update_analysis_status db analysis_id status doctor_notes now) user_id
       = get_user_history db user_id.
Proof.
  intros db i u s n t.
  assert (E : get_user_history_4 (update_analysis_status db i s n t) u
              = get_user_history_4 db u).
  { unfold get_user_history_4. rewrite select_history_update, map_map.
    apply map_ext. intros r. apply history4_update_row. }
  split; [apply select_history_update |]. split; [exact E |].
  unfold get_user_history. now rewrite E.
Qed.

End RecordFacts.

Import RecordFacts.

(** ** Key constraints, authentication and login *)

Module AccountMore.

Lemma absent_string_key {A : Type} (f : A -> string) (k : string) (l : list A) :
  existsb (fun r => (f r =? k)%string) l = false -> ~ In k (map f l).
Proof.
  intros E I. apply in_map_iff in I as (r & <- & I).
  assert (T : existsb (fun r0 => (f r0 =? f r)%string) l = true).
  { apply existsb_exists. exists r. split; [exact I | apply String.eqb_refl]. }
  congruence.
Qed.

Lemma absent_nat_key {A : Type} (f : A -> nat) (k : nat) (l : list A) :
  existsb (fun r => f r =? k) l = false -> ~ In k (map f l).
Proof.
  intros E I. apply in_map_iff in I as (r & <- & I).
  assert (T : existsb (fun r0 => f r0 =? f r) l = true).
  { apply existsb_exists. exists r. split; [exact I | apply Nat.eqb_refl]. }
  congruence.
Qed.

Lemma create_user_keeps_keys (h : string -> string) (db : DB)
  (u p r : string) :
  key_constraints db -> key_constraints (snd (create_user h db u p r)).
Proof.
  intros K. unfold create_user, insert_user.
  destruct (existsb _ (users db)) eqn:E; [exact K |].
  destruct K as (K1 & K2 & K3 & K4 & K5 & K6).
  unfold key_constraints. simpl. rewrite !map_app. simpl.
  repeat split; trivial.
  - apply NoDup_snoc; [exact K1 | apply fresh_id_new].
  - apply NoDup_snoc; [exact K2 |].
    now apply (absent_string_key users_username).
Qed.

Lemma create_doctor_keeps_keys (db : DB) (uid : nat) (fn sp : string) :
  key_constraints db -> key_constraints (snd (create_doctor db uid fn sp)).
Proof.
  intros K. unfold create_doctor, insert_doctor.
  destruct (existsb _ (doctors db)) eqn:E; [exact K |].
  destruct K as (K1 & K2 & K3 & K4 & K5 & K6).
  unfold key_constraints. simpl. rewrite !map_app. simpl.
  repeat split; trivial.
  - apply NoDup_snoc; [exact K3 | apply fresh_id_new].
  - apply NoDup_snoc; [exact K4 |].
    now apply (absent_nat_key doctors_user_id).
Qed.

Lemma assign_doctor_keeps_keys (db : DB) (d p : nat) (t : time) :
  key_constraints db -> key_constraints (snd (assign_doctor db d p t)).
Proof.
  intros K. unfold assign_doctor, insert_doctor_patient.
  destruct (existsb _ (doctor_patient db)) eqn:E; [exact K |].
  destruct K as (K1 & K2 & K3 & K4 & K5 & K6).
  unfold key_constraints. simpl. rewrite !map_app. simpl.
  repeat split; trivial.
  apply NoDup_snoc; [exact K5 |].
  intros I. apply in_map_iff in I as (r & [= Hd Hp] & I).
  assert (T : existsb (fun r => (dp_doctor_id r =? d) && (dp_patient_id r =? p))
                      (doctor_patient db) = true).
  { apply existsb_exists. exists r. split; [exact I |].
    now rewrite Hd, Hp, !Nat.eqb_refl. }
  congruence.
Qed.

Lemma save_analysis_keeps_keys (db : DB) (u : nat) (m s r : string) (t : time) :
  key_constraints db -> key_constraints (save_analysis db u m s r t).
Proof.
  intros (K1 & K2 & K3 & K4 & K5 & K6).
  unfold key_constraints, save_analysis. rewrite insert_analysis_rows.
  simpl. rewrite map_app. simpl.
  repeat split; trivial.
  apply NoDup_snoc; [exact K6 | apply fresh_id_new].
Qed.

Lemma update_keeps_keys (db : DB) (i : nat) (s n : string) (t : time) :
  key_constraints db -> key_constraints (update_analysis_status db i s n t).
Proof.
  intros (K1 & K2 & K3 & K4 & K5 & K6).
  unfold key_constraints. simpl. rewrite map_map.
  repeat split; trivial.
  erewrite map_ext; [exact K6 |]. intros a. apply update_row_id.
Qed.

Example empty_store_keys : key_constraints empty_db.
Proof. repeat split; constructor. Qed.

(** X10: Every write operation of the store keeps the PRIMARY KEY and UNIQUE
    constraints of the schema: row ids, usernames, the user id of a doctor
    profile and the (doctor, patient) pair of an assignment stay unique. *)
Theorem store_operations_keep_key_constraints :
  forall (hash_password : string -> string) (db : DB),
    key_constraints db ->
    (forall username password role,
        key_constraints (snd (create_user hash_password db username password role)))
    /\ (forall user_id full_name specialization,
          key_constraints (snd (create_doctor db user_id full_name specialization)))
    /\ (forall doctor_id patient_id now,
          key_constraints (snd (assign_doctor db doctor_id patient_id now)))
    /\ (forall user_id medical_terms summary recommendations now,
          key_constraints
            (save_analysis db user_id medical_terms summary recommendations now))
    /\ (forall analysis_id status doctor_notes now,
          key_constraints
            (update_analysis_status db analysis_id status doctor_notes now)).
Proof.
  intros h db K. split; [| split; [| split; [| split]]]; intros.
  - now apply create_user_keeps_keys.
  - now apply create_doctor_keeps_keys.
  - now apply assign_doctor_keeps_keys.
  - now apply save_analysis_keeps_keys.
  - now apply update_keeps_keys.
Qed.

Lemma store_operations_keep_key_constraints_witness :
  key_constraints (snd (create_user Samples.toy_hash empty_db "alice" "correct" "patient")).
Proof.
  apply (proj1 (store_operations_keep_key_constraints
                  Samples.toy_hash empty_db empty_store_keys)).
Defined.

(** X11: With unique usernames, [verify_user] returns an account exactly when a
    users row carries that username and the hash of that password, and the
    account is the id and role of this row. *)
Theorem verify_user_sound_and_complete :
  forall (hash_password : string -> string) (db : DB)
         (username password : string) (account : user),
    NoDup (map users_username (users db)) ->
    (verify_user hash_password db username password = Some account
     <-> exists r, In r (users db)
                   /\ users_username r = username
                   /\ users_password r = hash_password password
                   /\ account = mkUserDict (users_id r) (users_role r)).
Proof.
  intros h db u p acct ND. unfold verify_user. split.
  - destruct (find _ (users db)) as [r |] eqn:F; [| discriminate].
    apply find_some in F as [I E]. apply String.eqb_eq in E.
    destruct (users_password r =? h p)%string eqn:P; [| discriminate].
    apply String.eqb_eq in P. intros [= <-]. eauto.
  - intros (r & I & U & P & ->).
    destruct (find _ (users db)) as [r' |] eqn:F.
    + apply find_some in F as [I' E]. apply String.eqb_eq in E.
      assert (r' = r)
        by (apply (unique_by users_username (users db)); congruence).
      subst r'. rewrite P, String.eqb_refl. reflexivity.
    + exfalso. apply (find_none _ _ F) in I.
      apply String.eqb_neq in I. contradiction.
Qed.

Lemma verify_user_sound_and_complete_witness :
  verify_user Samples.toy_hash Samples.db_unassigned "drbob" "secret1"
  = Some (mkUserDict 2 "doctor").
Proof.
  apply (proj2 (verify_user_sound_and_complete
                  Samples.toy_hash Samples.db_unassigned "drbob" "secret1"
                  (mkUserDict 2 "doctor")
                  ltac:(repeat constructor; simpl; intuition discriminate))).
  exists (mkUser 2 "drbob" (Samples.toy_hash "secret1") "doctor").
  repeat split. right. now left.
Defined.

(** X12: Once both password checks pass, [register] answers "Username already
    exists" exactly when a users row has the username, and then writes
    nothing. *)
Theorem register_rejects_exactly_taken_usernames :
  forall (hash_password : string -> string) (db : DB) (role : reg_role)
         (username password full_name specialization : string),
    6 <= String.length password ->
    (fst (register hash_password db role username password password
                   full_name specialization)
     = st_error "Username already exists"
     <-> In username (map users_username (users db)))
    /\ (In username (map users_username (users db)) ->
        snd (register hash_password db role username password password
                      full_name specialization) = db).
Proof.
  intros h db role u p fn sp L. rewrite register_checked by exact L.
  destruct (existsb (fun r => (users_username r =? u)%string) (users db)) eqn:E.
  - assert (I : In u (map users_username (users db))).
    { apply existsb_exists in E as (r & I & E). apply String.eqb_eq in E.
      subst u. now apply in_map. }
    assert (T : find (fun r => (users_username r =? u)%string) (users db) <> None).
    { intros F. apply existsb_find_none in F. congruence. }
    rewrite (create_user_taken h db u p (role_name role) T). simpl. tauto.
  - pose proof (absent_string_key users_username u (users db) E) as N.
    apply existsb_find_none in E.
    destruct (create_user_fresh h db u p (role_name role) E) as (uid & db1 & C & T).
    rewrite C, T. split; [| contradiction].
    split; [| contradiction].
    destruct role; [discriminate |].
    destruct (create_doctor _ _ _ _) as [[|] db2]; discriminate.
Qed.

Lemma register_rejects_exactly_taken_usernames_witness :
  fst (register Samples.toy_hash Samples.db_unassigned Patient
                "alice" "another1" "another1" "" "")
  = st_error "Username already exists".
Proof.
  apply (proj1 (register_rejects_exactly_taken_usernames
                  Samples.toy_hash Samples.db_unassigned Patient
                  "alice" "another1" "" ""
                  ltac:(simpl; lia))).
  simpl. now left.
Defined.

(** The account a successful registration stores. *)
Lemma register_success_account (h : string -> string) (db db' : DB)
  (role : reg_role) (u p c fn sp text : string) :
  register h db role u p c fn sp = (st_success text, db') ->
  exists uid,
    find (fun r => (users_username r =? u)%string) (users db) = None
    /\ users db' = users db ++ [mkUser uid u (h p) (role_name role)].
Proof.
  unfold register.
  destruct (negb (p =? c)%string); [discriminate |].
  destruct (String.length p <? 6); [discriminate |].
  destruct (create_user h db u p (role_name role)) as [o db1] eqn:C.
  destruct o as [uid |]; [| discriminate].
  apply create_user_created in C as (F & _ & U & _).
  destruct (truthy (Some uid)); [| discriminate].
  intros H. exists uid. split; [exact F |].
  destruct role.
  - now injection H as _ <-.
  - unfold create_doctor, insert_doctor in H.
    destruct (existsb _ (doctors db1)); [discriminate |].
    now injection H as _ <-.
Qed.

Lemma role_name_inj (a b : reg_role) : role_name a = role_name b -> a = b.
Proof. destruct a, b; simpl; congruence. Qed.

Example login_wrong_tab :
  login Samples.toy_hash Doctor Samples.db_unassigned "alice" "correct" logged_out
  = (st_error "Invalid username or password", logged_out).
Proof. reflexivity. Qed.

(** X13: The login tabs are scoped by role: after a successful registration the
    account logs in through the tab of its own role, which stores its id
    and role in the session, and is turned away by the other tab and for
    every password with another hash, with the message of an unknown
    username and with the session untouched. *)
Theorem login_is_scoped_by_role :
  forall (hash_password : string -> string) (db db' : DB) (role : reg_role)
         (username password confirm full_name specialization text : string),
    register hash_password db role username password confirm
             full_name specialization = (st_success text, db') ->
    exists uid,
      In (mkUser uid username (hash_password password) (role_name role)) (users db')
      /\ (forall s,
            login hash_password role db' username password s
            = (st_success "Login successful!",
               mkSession (Some uid) (Some (role_name role))))
      /\ (forall s tab,
            tab <> role ->
            login hash_password tab db' username password s
            = (st_error "Invalid username or password", s))
      /\ (forall s tab password',
            hash_password password' <> hash_password password ->
            login hash_password tab db' username password' s
            = (st_error "Invalid username or password", s)).
Proof.
  intros h db db' role u p c fn sp text R.
  apply register_success_account in R as (uid & F & U).
  exists uid.
  pose proof (find_new_user (users db) (mkUser uid u (h p) (role_name role)) F) as N.
  simpl in N.
  split; [rewrite U, in_app_iff; right; now left |].
  unfold login, verify_user. rewrite U, N. simpl.
  split; [| split].
  - intros s. now rewrite !String.eqb_refl.
  - intros s tab D. rewrite String.eqb_refl. simpl.
    destruct (role_name role =? role_name tab)%string eqn:E; [| reflexivity].
    apply String.eqb_eq, role_name_inj in E. congruence.
  - intros s tab p' D. apply not_eq_sym, String.eqb_neq in D. now rewrite D.
Qed.

Lemma login_is_scoped_by_role_witness :
  exists uid,
    In (mkUser uid "alice" (Samples.toy_hash "correct") "patient")
       (users (snd (register Samples.toy_hash empty_db Patient
                             "alice" "correct" "correct" "" "")))
    /\ (forall s,
          login Samples.toy_hash Patient
                (snd (register Samples.toy_hash empty_db Patient
                               "alice" "correct" "correct" "" ""))
                "alice" "correct" s
          = (st_success "Login successful!",
             mkSession (Some uid) (Some "patient")))
    /\ (forall s tab,
          tab <> Patient ->
          login Samples.toy_hash tab
                (snd (register Samples.toy_hash empty_db Patient
                               "alice" "correct" "correct" "" ""))
                "alice" "correct" s
          = (st_error "Invalid username or password", s))
    /\ (forall s tab password',
          Samples.toy_hash password' <> Samples.toy_hash "correct" ->
          login Samples.toy_hash tab
                (snd (register Samples.toy_hash empty_db Patient
                               "alice" "correct" "correct" "" ""))
                "alice" password' s
          = (st_error "Invalid username or password", s)).
Proof.
  exact (login_is_scoped_by_role
           Samples.toy_hash empty_db _ Patient
           "alice" "correct" "correct" "" ""
           "Patient registration successful! Please login." eq_refl).
Defined.

End AccountMore.

Import AccountMore.

(** ** The dashboard and the History page as the file has them *)

Module DashboardFacts.

Lemma review_record_short (analysis : list value) (w : Widgets) (now : time)
  (db : DB) :
  List.length analysis = 4 ->
  review_record analysis w now db = (Raise IndexError, db).
Proof.
  intros L.
  destruct analysis as [| a [| b [| c [| d [| e l]]]]]; try discriminate.
  reflexivity.
Qed.

(** On rows of four values the loop stops at the first row. *)
Lemma review_loop_short (history : list (list value)) (w : Widgets)
  (now : time) (db : DB) :
  (forall row, In row history -> List.length row = 4) ->
  review_loop history w now db
  = match history with
    | [] => (Val [], db)
    | _ :: _ => (Raise IndexError, db)
    end.
Proof.
  intros H. destruct history as [| row rest]; [reflexivity |].
  simpl. now rewrite (review_record_short row w now db (H row (or_introl eq_refl))).
Qed.

Lemma dashboard_loop (db : DB) (pid : nat) (w : Widgets) (now : time) :
  review_loop (get_user_history db pid) w now db
  = match get_user_history db pid with
    | [] => (Val [], db)
    | _ :: _ => (Raise IndexError, db)
    end.
Proof. apply review_loop_short, get_user_history_columns. Qed.

Lemma dashboard_store (db : DB) (uid : nat) (w : Widgets) (now : time) :
  snd (doctor_interface db uid w now) = db.
Proof.
  unfold doctor_interface.
  destruct (negb (truthy (get_doctor_id db uid))); [reflexivity |].
  destruct (get_doctor_patients db _) as [| first rest]; [reflexivity |].
  rewrite dashboard_loop. now destruct (get_user_history db _).
Qed.

(** What holds of the store before a run of the dashboard holds after it. *)
Lemma doctor_interface_keeps (P : DB -> Prop) (w : Widgets) (now : time)
  (db : DB) (uid : nat) :
  P db -> P (snd (doctor_interface db uid w now)).
Proof. now rewrite dashboard_store. Qed.

Lemma dashboard_of_selected (db : DB) (uid did pid : nat) (name : string)
  (w : Widgets) (now : time) :
  get_doctor_id db uid = Some did -> did <> 0 ->
  nth_error (get_doctor_patients db did) (select_patient w) = Some (pid, name) ->
  doctor_interface db uid w now
  = review_loop (get_user_history db pid) w now db.
Proof.
  intros G N Sel. unfold doctor_interface. rewrite G.
  destruct did as [| d]; [contradiction |]. simpl.
  destruct (get_doctor_patients db (S d)) as [| first rest] eqn:P;
    [destruct (select_patient w); discriminate |].
  now rewrite (nth_error_nth _ _ first Sel).
Qed.

Lemma history_empty (db : DB) (pid : nat) :
  get_user_history db pid = []
  <-> forall r, In r (analysis_history db) -> ah_user_id r <> pid.
Proof.
  unfold get_user_history, get_user_history_4. split.
  - intros E r I U.
    assert (S : In r (select_history db pid))
      by (apply select_history_rows; now split).
    destruct (select_history db pid); [destruct S | discriminate].
  - intros H. destruct (select_history db pid) as [| r l] eqn:E; [reflexivity |].
    assert (S : In r (select_history db pid)) by (rewrite E; now left).
    apply select_history_rows in S as [I U]. now destruct (H r I).
Qed.

Example dashboard_assigned :
  doctor_interface Samples.db_assigned 2 Samples.approve_1 20
  = (Raise IndexError, Samples.db_assigned).
Proof. reflexivity. Qed.

(** X14: A run of the dashboard writes nothing, whatever is picked, typed or
    pressed: [get_user_history] hands it rows of four columns, so reading
    the status column of the first record raises before
    [update_analysis_status] is reached, and "Review updated successfully"
    is never reported. *)
Theorem dashboard_never_writes :
  forall (db : DB) (session_user_id : nat) (w : Widgets) (now : time),
    snd (doctor_interface db session_user_id w now) = db
    /\ (forall msgs,
          fst (doctor_interface db session_user_id w now) = Val msgs ->
          msgs = [st_error "Doctor account not properly configured"]
          \/ msgs = [st_info "No patients assigned yet"]
          \/ msgs = []).
Proof.
  intros db uid w now. split; [apply dashboard_store |].
  intros msgs. unfold doctor_interface.
  destruct (negb (truthy (get_doctor_id db uid)));
    [intros [= <-]; tauto |].
  destruct (get_doctor_patients db _) as [| first rest];
    [intros [= <-]; tauto |].
  rewrite dashboard_loop. destruct (get_user_history db _);
    [intros [= <-]; tauto | discriminate].
Qed.

Lemma dashboard_never_writes_witness :
  [st_info "No patients assigned yet"]
  = [st_error "Doctor account not properly configured"]
  \/ [st_info "No patients assigned yet"] = [st_info "No patients assigned yet"]
  \/ [st_info "No patients assigned yet"] = [].
Proof.
  apply (proj2 (dashboard_never_writes Samples.db_unassigned 2 Samples.approve_1 20)
               [st_info "No patients assigned yet"]).
  reflexivity.
Defined.

(** X15: For a doctor with a profile and a selected patient, the dashboard
    raises [IndexError] exactly when the patient has at least one analysis
    record; for a patient without records it renders nothing and reports
    nothing. *)
Theorem dashboard_raises_on_first_record :
  forall (db : DB) (session_user_id doctor_id patient_id : nat) (name : string)
         (w : Widgets) (now : time),
    get_doctor_id db session_user_id = Some doctor_id ->
    doctor_id <> 0 ->
    nth_error (get_doctor_patients db doctor_id) (select_patient w)
    = Some (patient_id, name) ->
    (fst (doctor_interface db session_user_id w now) = Raise IndexError
     <-> exists r, In r (analysis_history db) /\ ah_user_id r = patient_id)
    /\ ((forall r, In r (analysis_history db) -> ah_user_id r <> patient_id) ->
        doctor_interface db session_user_id w now = (Val [], db)).
Proof.
  intros db uid did pid name w now G N Sel.
  rewrite (dashboard_of_selected db uid did pid name w now G N Sel).
  rewrite dashboard_loop. split.
  - destruct (get_user_history db pid) as [| row rest] eqn:E; simpl.
    + split; [discriminate |]. intros (r & I & U).
      now destruct (proj1 (history_empty db pid) E r I).
    + split; [intros _ | reflexivity].
      destruct (select_history db pid) as [| r l] eqn:S.
      * unfold get_user_history, get_user_history_4 in E. rewrite S in E.
        discriminate.
      * assert (I : In r (select_history db pid)) by (rewrite S; now left).
        apply select_history_rows in I. eauto.
  - intros H. apply history_empty in H. now rewrite H.
Qed.

Lemma dashboard_raises_on_first_record_witness :
  fst (doctor_interface Samples.db_assigned 2 Samples.approve_1 20)
  = Raise IndexError.
Proof.
  apply (proj2 (proj1 (dashboard_raises_on_first_record
                         Samples.db_assigned 2 1 1 "alice" Samples.approve_1 20
                         eq_refl ltac:(discriminate) eq_refl))).
  eexists. split; [now left | reflexivity].
Defined.

Lemma history_loop_short (history : list (list value)) :
  (forall row, In row history -> List.length row = 4) ->
  history <> [] ->
  history_loop history = Raise ValueError.
Proof.
  intros H N. destruct history as [| row rest]; [contradiction |].
  pose proof (H row (or_introl eq_refl)) as L.
  destruct row as [| a [| b [| c [| d [| e l]]]]]; try discriminate.
  reflexivity.
Qed.

Example history_of_alice :
  history_page Samples.db_unassigned 1 = Raise ValueError
  /\ history_page Samples.db_unassigned 2
     = Val [st_info "No analysis history found"].
Proof. split; reflexivity. Qed.

(** X16: The History page of a patient writes nothing; it reports "No
    analysis history found" for a patient without records, and for a patient
    with at least one record it raises [ValueError], its loop unpacking
    seven values from the four-column rows of [get_user_history]. *)
Theorem history_page_raises_on_first_record :
  forall (nlp : string -> Doc) (generate_recommendations : string -> string + string)
         (db : DB) (user_id : nat) (now : time),
    snd (patient_interface nlp generate_recommendations db user_id History now)
    = db
    /\ ((forall r, In r (analysis_history db) -> ah_user_id r <> user_id) ->
        fst (patient_interface nlp generate_recommendations db user_id History now)
        = HistoryPage (Val [st_info "No analysis history found"]))
    /\ ((exists r, In r (analysis_history db) /\ ah_user_id r = user_id) ->
        fst (patient_interface nlp generate_recommendations db user_id History now)
        = HistoryPage (Raise ValueError)).
Proof.
  intros nlp gen db uid now. simpl. split; [reflexivity |]. split.
  - intros H. apply history_empty in H. unfold history_page. now rewrite H.
  - intros (r & I & U). unfold history_page.
    destruct (get_user_history db uid) as [| row rest] eqn:E.
    + now destruct (proj1 (history_empty db uid) E r I).
    + rewrite history_loop_short; [reflexivity | | discriminate].
      rewrite <- E. apply get_user_history_columns.
Qed.

Lemma history_page_raises_on_first_record_witness :
  fst (patient_interface (fun _ => doc_sample) (fun _ => inl "r")
                         Samples.db_unassigned 1 History 20)
  = HistoryPage (Raise ValueError).
Proof.
  apply (proj2 (proj2 (history_page_raises_on_first_record
                         (fun _ => doc_sample) (fun _ => inl "r")
                         Samples.db_unassigned 1 20))).
  eexists. split; [now left | reflexivity].
Defined.

End DashboardFacts.

Import DashboardFacts.

(** ** The patient's page *)

Module PatientFacts.

Example analysis_of_sample :
  let gen := fun summary : string => @inl string string ("Advice for: " ++ summary)%string in
  map (fun r => (ah_user_id r, ah_medical_terms r, ah_status r))
      (analysis_history
         (snd (new_analysis (fun _ => doc_sample) gen empty_db 7
                            (TypeText "fever since last week") true 10)))
  = [(7, "WHO, chronic fever, Paris, the Pain", Some "pending")].
Proof. reflexivity. Qed.

Example analysis_generator_down :
  new_analysis (fun _ => doc_sample) (fun _ => inr "timeout") empty_db 7
               (TypeText "fever") true 10
  = (AnalysisPage None (AnalysisFailed (inr "timeout")), empty_db).
Proof. reflexivity. Qed.



(** X18: Nothing is analysed unless "Analyze" is pressed on a non-empty input.
    An upload gives an empty input exactly when no file is held, when the
    PDF cannot be read, when the PDF has no page, or when the extracted text
    was edited down to nothing: an unedited PDF with at least one page is
    analysed even if none of its pages has text. *)
Theorem analysis_runs_on_nonempty_input_only :
  forall (nlp : string -> Doc) (generate_recommendations : string -> string + string)
         (db : DB) (user_id : nat) (now : time),
    (forall o analyze_clicked,
        analyze_clicked = false \/ snd (user_input_of o) = "" ->
        new_analysis nlp generate_recommendations db user_id o analyze_clicked now
        = (AnalysisPage (fst (user_input_of o)) NotRun, db))
    /\ (forall o,
          snd (user_input_of o) <> "" ->
          forall shown db',
            new_analysis nlp generate_recommendations db user_id o true now
            = (shown, db') ->
            shown <> AnalysisPage (fst (user_input_of o)) NotRun)
    /\ (forall file edited,
          snd (user_input_of (UploadFile file edited)) = ""
          <-> file = NoFile
              \/ (exists e, file = BrokenPdf e)
              \/ (exists pages, file = Pdf pages
                                /\ (edited = Some ""
                                    \/ (edited = None /\ pages = [])))).
Proof.
  intros nlp gen db uid now. split; [| split].
  - intros o clicked H. unfold new_analysis.
    destruct (user_input_of o) as [msg input]. simpl in *.
    destruct H as [-> | ->]; [reflexivity |]. now rewrite andb_false_r.
  - intros o H shown db'. unfold new_analysis.
    destruct (user_input_of o) as [msg input]. simpl in *.
    apply String.eqb_neq in H. rewrite H. simpl.
    destruct (extract_medical_keywords nlp input); [| intros [= <- _]; discriminate].
    destruct (gen _); intros [= <- _]; discriminate.
  - intros file edited. destruct file as [| pages | e]; simpl.
    + split; [tauto | reflexivity].
    + destruct edited as [t |].
      * split.
        -- intros ->. right; right. exists pages. tauto.
        -- intros [H | [[e H] | (pg & [= <-] & [[= ->] | [H _]])]];
             try discriminate; reflexivity.
      * rewrite ExtractionMore.pdf_text_empty.
        split.
        -- intros ->. right; right. exists []. tauto.
        -- intros [H | [[e H] | (pg & [= <-] & [H | [_ H]])]];
             try discriminate; exact H.
    + split; [intros _; right; left; eauto | reflexivity].
Qed.

Lemma analysis_runs_on_nonempty_input_only_witness :
  new_analysis (fun _ => doc_sample) (fun _ => inl "r") empty_db 7
               (UploadFile (Pdf []) None) true 10
  = (AnalysisPage None NotRun, empty_db).
Proof.
  apply (proj1 (analysis_runs_on_nonempty_input_only
                  (fun _ => doc_sample) (fun _ => inl "r") empty_db 7 10)
               (UploadFile (Pdf []) None) true).
  right. reflexivity.
Defined.

End PatientFacts.

Import PatientFacts.

(** ** Runs of [main] *)

Module SessionFacts.

Section WithCollaborators.

Variable h : string -> string.
Variable nlp : string -> Doc.
Variable gen : string -> string + string.

(** What holds of the store and survives [create_user] and [create_doctor]
    holds after [register]. *)
Lemma register_keeps (P : DB -> Prop) (db : DB) (role : reg_role)
  (u p c fn sp : string) :
  (forall d u' p' r', P d -> P (snd (create_user h d u' p' r'))) ->
  (forall d uid fn' sp', P d -> P (snd (create_doctor d uid fn' sp'))) ->
  P db -> P (snd (register h db role u p c fn sp)).
Proof using h nlp gen.
  intros Hu Hd H. unfold register.
  destruct (negb (p =? c)%string); [exact H |].
  destruct (String.length p <? 6); [exact H |].
  pose proof (Hu db u p (role_name role) H) as H1.
  destruct (create_user h db u p (role_name role)) as [o db1].
  simpl in H1. destruct (truthy o); [| exact H1].
  destruct role; [exact H1 |].
  match goal with
  | |- context [create_doctor db1 ?uid fn sp] =>
      pose proof (Hd db1 uid fn sp H1) as H2;
      destruct (create_doctor db1 uid fn sp) as [[|] db2]
  end; exact H2.
Qed.

Lemma patient_store_cases (db : DB) (uid : nat) (nav : nav_option) (now : time) :
  snd (patient_interface nlp gen db uid nav now) = db
  \/ exists m s r, snd (patient_interface nlp gen db uid nav now)
                   = save_analysis db uid m s r now.
Proof using h nlp gen.
  destruct nav as [o clicked |]; simpl; [| now left].
  unfold new_analysis. destruct (user_input_of o) as [msg input].
  destruct (clicked && negb (input =? "")%string); [| now left].
  destruct (extract_medical_keywords nlp input); [| now left].
  destruct (gen _); [right | now left].
  simpl. eauto.
Qed.

(** The four ways a run of [main] can touch the store. *)
Lemma main_store_cases (db db' : DB) (s s' : session_state) (ev : event)
  (now : time) (pg : page) :
  main h nlp gen db s ev now = (pg, s', db') ->
  db' = db
  \/ (session_user_id s = None
      /\ exists role u p c fn sp,
           db' = snd (register h db role u p c fn sp))
  \/ (exists uid w,
         session_user_id s = Some uid
         /\ session_role s = Some "doctor"
         /\ (ev = EvDoctor w \/ update_clicked w = None)
         /\ db' = snd (doctor_interface db uid w now))
  \/ (exists uid nav,
         session_user_id s = Some uid
         /\ session_role s <> Some "doctor"
         /\ db' = snd (patient_interface nlp gen db uid nav now)).
Proof using h nlp gen.
  unfold Pages.main. destruct (session_user_id s) as [uid |] eqn:U.
  - assert (D : forall w, (ev = EvDoctor w \/ update_clicked w = None) ->
                session_role s = Some "doctor" ->
                forall out d, doctor_interface db uid w now = (out, d) ->
                (DoctorView out, s, d) = (pg, s', db') ->
                db' = db
                \/ (Some uid = None /\ exists role u p c fn sp,
                      db' = snd (register h db role u p c fn sp))
                \/ (exists uid0 w0, Some uid = Some uid0
                      /\ session_role s = Some "doctor"
                      /\ (ev = EvDoctor w0 \/ update_clicked w0 = None)
                      /\ db' = snd (doctor_interface db uid0 w0 now))
                \/ (exists uid0 nav, Some uid = Some uid0
                      /\ session_role s <> Some "doctor"
                      /\ db' = snd (patient_interface nlp gen db uid0 nav now))).
    { intros w Hw R out d E [= _ _ <-]. right; right; left.
      exists uid, w. rewrite E. tauto. }
    assert (Pt : forall nav, session_role s <> Some "doctor" ->
                 forall p d, patient_interface nlp gen db uid nav now = (p, d) ->
                 (PatientView p, s, d) = (pg, s', db') ->
                 db' = db
                 \/ (Some uid = None /\ exists role u p c fn sp,
                       db' = snd (register h db role u p c fn sp))
                 \/ (exists uid0 w0, Some uid = Some uid0
                       /\ session_role s = Some "doctor"
                       /\ (ev = EvDoctor w0 \/ update_clicked w0 = None)
                       /\ db' = snd (doctor_interface db uid0 w0 now))
                 \/ (exists uid0 nav0, Some uid = Some uid0
                       /\ session_role s <> Some "doctor"
                       /\ db' = snd (patient_interface nlp gen db uid0 nav0 now))).
    { intros nav R p d E [= _ _ <-]. right; right; right.
      exists uid, nav. rewrite E. tauto. }
    destruct (session_role s) as [r |] eqn:Ro.
    + destruct (r =? "doctor")%string eqn:Er.
      * apply String.eqb_eq in Er. subst r.
        destruct ev; try (intros [= _ _ <-]; now left);
          match goal with
          | |- context [doctor_interface db uid ?w now] =>
              destruct (doctor_interface db uid w now) as [out d] eqn:E;
              apply (D w); auto
          end.
      * apply String.eqb_neq in Er.
        assert (R : Some r <> Some "doctor") by congruence.
        destruct ev; try (intros [= _ _ <-]; now left);
          match goal with
          | |- context [patient_interface nlp gen db uid ?n now] =>
              destruct (patient_interface nlp gen db uid n now) as [p d] eqn:E;
              apply (Pt n); auto
          end.
    + assert (R : @None string <> Some "doctor") by discriminate.
      destruct ev; try (intros [= _ _ <-]; now left);
        match goal with
        | |- context [patient_interface nlp gen db uid ?n now] =>
            destruct (patient_interface nlp gen db uid n now) as [p d] eqn:E;
            apply (Pt n); auto
        end.
  - destruct ev as [| u1 p1 | u1 p1 | ro u1 p1 c1 fn1 sp1 | | nav1 | w1];
      try (intros [= _ _ <-]; now left).
    + destruct (login _ _ _ _ _ _) as [m s1]. intros [= _ _ <-]. now left.
    + destruct (login _ _ _ _ _ _) as [m s1]. intros [= _ _ <-]. now left.
    + destruct (register h db ro u1 p1 c1 fn1 sp1) as [m d] eqn:E.
      intros [= _ _ <-]. right; left. split; [reflexivity |].
      exists ro, u1, p1, c1, fn1, sp1. now rewrite E.
Qed.

(** The three ways a run of [main] can touch the session. *)
Lemma main_session_cases (db db' : DB) (s s' : session_state) (ev : event)
  (now : time) (pg : page) :
  main h nlp gen db s ev now = (pg, s', db') ->
  s' = s
  \/ s' = logged_out
  \/ (session_user_id s = None
      /\ db' = db
      /\ exists tab u p account,
           verify_user h db u p = Some account
           /\ role account = role_name tab
           /\ s' = mkSession (Some (id account)) (Some (role_name tab))).
Proof using h nlp gen.
  assert (L : forall tab u p m s1,
             login h tab db u p s = (m, s1) ->
             s1 = s
             \/ exists account,
                  verify_user h db u p = Some account
                  /\ role account = role_name tab
                  /\ s1 = mkSession (Some (id account)) (Some (role_name tab))).
  { intros tab u p m s1. unfold login.
    destruct (verify_user h db u p) as [a |];
      [| intros [= _ <-]; now left].
    destruct (role a =? role_name tab)%string eqn:E;
      [| intros [= _ <-]; now left].
    apply String.eqb_eq in E. intros [= _ <-]. right. eauto. }
  unfold Pages.main. destruct (session_user_id s) as [uid |] eqn:U.
  - destruct (session_role s) as [r |].
    + destruct (r =? "doctor")%string;
        destruct ev; try (intros [= _ <- _]; tauto);
        try (destruct (doctor_interface _ _ _ _)); 
        try (destruct (Pages.patient_interface _ _ _ _ _ _));
        intros [= _ <- _]; tauto.
    + destruct ev; try (intros [= _ <- _]; tauto);
        destruct (Pages.patient_interface _ _ _ _ _ _);
        intros [= _ <- _]; tauto.
  - destruct ev as [| u1 p1 | u1 p1 | ro u1 p1 c1 fn1 sp1 | | nav1 | w1];
      try (intros [= _ <- _]; tauto).
    + destruct (login _ _ _ _ _ _) as [m s1] eqn:E. intros [= _ <- <-].
      destruct (L _ _ _ _ _ E) as [-> | (a & V & R & ->)]; [tauto |].
      right; right. repeat split. exists Patient, u1, p1, a. tauto.
    + destruct (login _ _ _ _ _ _) as [m s1] eqn:E. intros [= _ <- <-].
      destruct (L _ _ _ _ _ E) as [-> | (a & V & R & ->)]; [tauto |].
      right; right. repeat split. exists Doctor, u1, p1, a. tauto.
    + destruct (register _ _ _ _ _ _ _ _). intros [= _ <- _]. tauto.
Qed.

(** *** What one run keeps *)

Lemma create_user_tables (d : DB) (u p r : string) :
  doctors (snd (create_user h d u p r)) = doctors d
  /\ doctor_patient (snd (create_user h d u p r)) = doctor_patient d
  /\ analysis_history (snd (create_user h d u p r)) = analysis_history d
  /\ incl (users d) (users (snd (create_user h d u p r))).
Proof using h nlp gen.
  unfold create_user, insert_user.
  destruct (existsb _ (users d)); simpl; repeat split;
    try apply incl_refl. apply incl_appl, incl_refl.
Qed.

Lemma create_doctor_tables (d : DB) (uid : nat) (fn sp : string) :
  users (snd (create_doctor d uid fn sp)) = users d
  /\ doctor_patient (snd (create_doctor d uid fn sp)) = doctor_patient d
  /\ analysis_history (snd (create_doctor d uid fn sp)) = analysis_history d.
Proof using h nlp gen.
  unfold create_doctor, insert_doctor.
  destruct (existsb _ (doctors d)); simpl; repeat split.
Qed.

Lemma register_tables (db : DB) (role : reg_role) (u p c fn sp : string) :
  doctor_patient (snd (register h db role u p c fn sp)) = doctor_patient db
  /\ analysis_history (snd (register h db role u p c fn sp)) = analysis_history db
  /\ incl (users db) (users (snd (register h db role u p c fn sp))).
Proof using h nlp gen.
  apply register_keeps
    with (P := fun d => doctor_patient d = doctor_patient db
                        /\ analysis_history d = analysis_history db
                        /\ incl (users db) (users d)).
  - intros d u' p' r' (H1 & H2 & H3).
    destruct (create_user_tables d u' p' r') as (_ & E1 & E2 & I).
    rewrite E1, E2. repeat split; trivial. eapply incl_tran; eauto.
  - intros d uid fn' sp' (H1 & H2 & H3).
    destruct (create_doctor_tables d uid fn' sp') as (E0 & E1 & E2).
    rewrite E0, E1, E2. tauto.
  - repeat split. apply incl_refl.
Qed.

Lemma dashboard_tables (db : DB) (uid : nat) (w : Widgets) (now : time) :
  users (snd (doctor_interface db uid w now)) = users db
  /\ doctors (snd (doctor_interface db uid w now)) = doctors db
  /\ doctor_patient (snd (doctor_interface db uid w now)) = doctor_patient db
  /\ map submitted (analysis_history (snd (doctor_interface db uid w now)))
     = map submitted (analysis_history db).
Proof using h nlp gen.
  rewrite dashboard_store. tauto.
Qed.

Lemma find_app_some {A : Type} (f : A -> bool) (l1 l2 : list A) (x : A) :
  find f l1 = Some x -> find f (l1 ++ l2) = Some x.
Proof using h nlp gen.
  induction l1 as [| y l1 IH]; simpl; [discriminate |].
  destruct (f y); [trivial | exact IH].
Qed.

Lemma patient_tables (db : DB) (uid : nat) (nav : nav_option) (now : time) :
  users (snd (patient_interface nlp gen db uid nav now)) = users db
  /\ doctors (snd (patient_interface nlp gen db uid nav now)) = doctors db
  /\ doctor_patient (snd (patient_interface nlp gen db uid nav now))
     = doctor_patient db
  /\ (forall i r, find_analysis db i = Some r ->
                  find_analysis (snd (patient_interface nlp gen db uid nav now)) i
                  = Some r).
Proof using h nlp gen.
  destruct (patient_store_cases db uid nav now) as [-> | (m & su & r & ->)];
    [tauto |].
  repeat split. intros i x F. unfold find_analysis, save_analysis.
  rewrite insert_analysis_rows. now apply find_app_some.
Qed.

Lemma main_keeps_assignments (db db' : DB) (s s' : session_state) (ev : event)
  (now : time) (pg : page) :
  main h nlp gen db s ev now = (pg, s', db') ->
  doctor_patient db' = doctor_patient db.
Proof using h nlp gen.
  intros H. apply main_store_cases in H
    as [-> | [(_ & ro & u & p & c & fn & sp & ->)
             | [(uid & w & _ & _ & _ & ->) | (uid & nav & _ & _ & ->)]]].
  - reflexivity.
  - apply register_tables.
  - apply dashboard_tables.
  - apply patient_tables.
Qed.

Lemma main_keeps_records (db db' : DB) (s s' : session_state) (ev : event)
  (now : time) (pg : page) :
  main h nlp gen db s ev now = (pg, s', db') ->
  forall i r, find_analysis db i = Some r -> find_analysis db' i = Some r.
Proof using h nlp gen.
  intros H. apply main_store_cases in H
    as [-> | [(_ & ro & u & p & c & fn & sp & ->)
             | [(uid & w & _ & _ & _ & ->) | (uid & nav & _ & _ & ->)]]];
    intros i r F.
  - exact F.
  - unfold find_analysis.
    now rewrite (proj1 (proj2 (register_tables db ro u p c fn sp))).
  - now rewrite dashboard_store.
  - now apply patient_tables.
Qed.

Lemma main_keeps_keys (db db' : DB) (s s' : session_state) (ev : event)
  (now : time) (pg : page) :
  key_constraints db ->
  main h nlp gen db s ev now = (pg, s', db') ->
  key_constraints db'.
Proof using h nlp gen.
  intros K H. apply main_store_cases in H
    as [-> | [(_ & ro & u & p & c & fn & sp & ->)
             | [(uid & w & _ & _ & _ & ->) | (uid & nav & _ & _ & ->)]]].
  - exact K.
  - apply register_keeps; trivial; intros.
    + now apply create_user_keeps_keys.
    + now apply create_doctor_keeps_keys.
  - now apply doctor_interface_keeps.
  - destruct (patient_store_cases db uid nav now) as [-> | (m & su & r & ->)];
      [exact K | now apply save_analysis_keeps_keys].
Qed.

Lemma main_users_grow (db db' : DB) (s s' : session_state) (ev : event)
  (now : time) (pg : page) :
  main h nlp gen db s ev now = (pg, s', db') ->
  incl (users db) (users db').
Proof using h nlp gen.
  intros H. apply main_store_cases in H
    as [-> | [(_ & ro & u & p & c & fn & sp & ->)
             | [(uid & w & _ & _ & _ & ->) | (uid & nav & _ & _ & ->)]]].
  - apply incl_refl.
  - apply register_tables.
  - rewrite (proj1 (dashboard_tables db uid w now)). apply incl_refl.
  - rewrite (proj1 (patient_tables db uid nav now)). apply incl_refl.
Qed.

Lemma main_keeps_session (db db' : DB) (s s' : session_state) (ev : event)
  (now : time) (pg : page) :
  session_ok db s ->
  main h nlp gen db s ev now = (pg, s', db') ->
  session_ok db' s'.
Proof using h nlp gen.
  intros Ok H. pose proof (main_users_grow _ _ _ _ _ _ _ H) as G.
  apply main_session_cases in H
    as [-> | [-> | (_ & -> & tab & u & p & a & V & R & ->)]].
  - unfold session_ok in *. destruct (session_user_id s); [| exact I].
    destruct Ok as (x & Ix & Hx). exists x. split; [now apply G | exact Hx].
  - exact I.
  - unfold session_ok. simpl. unfold verify_user in V.
    destruct (find _ (users db)) as [x |] eqn:F; [| discriminate].
    destruct (users_password x =? h p)%string; [| discriminate].
    injection V as <-. simpl in R.
    apply find_some in F as [Ix _]. exists x.
    split; [exact Ix |]. split; [reflexivity |]. rewrite R.
    split; [reflexivity |]. destruct tab; simpl; tauto.
Qed.

End WithCollaborators.

Example visitor_cannot_analyse :
  main Samples.toy_hash (fun _ => doc_sample) (fun _ => inl "r")
       Samples.db_unassigned logged_out
       (EvPatient (NewAnalysis (TypeText "fever") true)) 20
  = (LoginPage None, logged_out, Samples.db_unassigned).
Proof. reflexivity. Qed.

Example full_session :
  let db_end :=
    snd (runs Samples.toy_hash (fun _ => doc_sample) (fun _ => inl "rest")
              empty_db logged_out
              [ (EvRegister Patient "alice" "correct" "correct" "" "", 1);
                (EvRegister Doctor "drbob" "secret1" "secret1" "Bob" "GP", 2);
                (EvPatientLogin "alice" "correct", 3);
                (EvPatient (NewAnalysis (TypeText "fever") true), 4);
                (EvLogout, 5);
                (EvDoctorLogin "drbob" "secret1", 6);
                (EvDoctor Samples.approve_1, 7) ]) in
  map ah_status (analysis_history db_end) = [Some "pending"]
  /\ doctor_patient db_end = [].
Proof. split; reflexivity. Qed.

(** X19: No run of [main] writes to the assignment table: [assign_doctor] is
    never called from the pages.  On a store without assignments, no
    sequence of registrations, logins, analyses and dashboard runs ever
    changes a saved record, so no record leaves the state it was saved in. *)
Theorem main_never_assigns :
  forall (hash_password : string -> string) (nlp : string -> Doc)
         (generate_recommendations : string -> string + string)
         (evs : list (event * time)) (db : DB) (s : session_state),
    doctor_patient
      (snd (runs hash_password nlp generate_recommendations db s evs))
    = doctor_patient db
    /\ (doctor_patient db = [] ->
        forall i r,
          find_analysis db i = Some r ->
          find_analysis
            (snd (runs hash_password nlp generate_recommendations db s evs)) i
          = Some r).
Proof.
  intros h nlp gen evs. induction evs as [| [ev now] evs IH]; intros db s.
  - simpl. tauto.
  - simpl. destruct (main h nlp gen db s ev now) as [[pg s1] db1] eqn:M.
    destruct (IH db1 s1) as [IH1 IH2].
    pose proof (main_keeps_assignments h nlp gen _ _ _ _ _ _ _ M) as A.
    split; [congruence |].
    intros E i r F. apply IH2; [congruence |].
    eapply main_keeps_records; eauto.
Qed.

Lemma main_never_assigns_witness :
  find_analysis
    (snd (runs Samples.toy_hash (fun _ => doc_sample) (fun _ => inl "rest")
               Samples.db_unassigned logged_out
               [ (EvDoctorLogin "drbob" "secret1", 6);
                 (EvDoctor Samples.approve_1, 7) ])) 1
  = Some (mkAnalysis 1 1 10 "fever" "s" "r" None (Some "pending") None None).
Proof.
  apply (proj2 (main_never_assigns
                  Samples.toy_hash (fun _ => doc_sample) (fun _ => inl "rest")
                  [ (EvDoctorLogin "drbob" "secret1", 6);
                    (EvDoctor Samples.approve_1, 7) ]
                  Samples.db_unassigned logged_out)).
  - reflexivity.
  - reflexivity.
Defined.

(** X20: No run of [main] changes a saved record: the one call of
    [update_analysis_status] sits behind the dashboard's reading of a status
    column that [get_user_history] does not fetch.  A logged-in doctor
    session leaves the whole store as it was, a logged-in session of either
    role creates no account, and a run without login touches no analysis
    record. *)
Theorem main_changes_no_saved_record :
  forall (hash_password : string -> string) (nlp : string -> Doc)
         (generate_recommendations : string -> string + string)
         (db db' : DB) (s s' : session_state) (ev : event) (now : time)
         (shown : page),
    main hash_password nlp generate_recommendations db s ev now
    = (shown, s', db') ->
    (forall i r,
        find_analysis db i = Some r -> find_analysis db' i = Some r)
    /\ (session_user_id s <> None -> session_role s = Some "doctor" ->
        db' = db)
    /\ (session_user_id s <> None ->
        users db' = users db /\ doctors db' = doctors db)
    /\ (session_user_id s = None ->
        analysis_history db' = analysis_history db).
Proof.
  intros h nlp gen db db' s s' ev now shown H.
  split; [exact (main_keeps_records h nlp gen _ _ _ _ _ _ _ H) |].
  apply main_store_cases in H
    as [-> | [(U & ro & u & p & c & fn & sp & ->)
             | [(uid & w & U & R & W & ->) | (uid & nav & U & R & ->)]]].
  - tauto.
  - pose proof (register_tables h nlp gen db ro u p c fn sp) as (_ & A & _).
    split; [| split]; congruence.
  - rewrite dashboard_store. tauto.
  - pose proof (patient_tables h nlp gen db uid nav now) as (T1 & T2 & _ & T4).
    split; [| split]; try tauto; congruence.
Qed.

Lemma main_changes_no_saved_record_witness :
  find_analysis
    (snd (main Samples.toy_hash (fun _ => doc_sample) (fun _ => inl "r")
               Samples.db_assigned (mkSession (Some 2) (Some "doctor"))
               (EvDoctor Samples.approve_1) 20)) 1
  = Some (mkAnalysis 1 1 10 "fever" "s" "r" None (Some "pending") None None).
Proof.
  apply (proj1 (main_changes_no_saved_record
                  Samples.toy_hash (fun _ => doc_sample) (fun _ => inl "r")
                  Samples.db_assigned _ (mkSession (Some 2) (Some "doctor")) _
                  (EvDoctor Samples.approve_1) 20 _ eq_refl)
               1 (mkAnalysis 1 1 10 "fever" "s" "r" None (Some "pending") None None)).
  reflexivity.
Defined.

(** X21: Along every sequence of runs of [main] the store keeps the key
    constraints of the schema, and a logged-in session always names a users
    row whose role, patient or doctor, is the role of the session. *)
Theorem runs_keep_keys_and_session :
  forall (hash_password : string -> string) (nlp : string -> Doc)
         (generate_recommendations : string -> string + string)
         (evs : list (event * time)) (db : DB) (s : session_state),
    key_constraints db ->
    session_ok db s ->
    key_constraints
      (snd (runs hash_password nlp generate_recommendations db s evs))
    /\ session_ok
         (snd (runs hash_password nlp generate_recommendations db s evs))
         (fst (runs hash_password nlp generate_recommendations db s evs)).
Proof.
  intros h nlp gen evs. induction evs as [| [ev now] evs IH]; intros db s K Ok.
  - simpl. tauto.
  - simpl. destruct (main h nlp gen db s ev now) as [[pg s1] db1] eqn:M.
    apply IH.
    + eapply main_keeps_keys; eauto.
    + eapply main_keeps_session; eauto.
Qed.

Lemma runs_keep_keys_and_session_witness :
  key_constraints
    (snd (runs Samples.toy_hash (fun _ => doc_sample) (fun _ => inl "rest")
               empty_db logged_out
               [ (EvRegister Patient "alice" "correct" "correct" "" "", 1);
                 (EvPatientLogin "alice" "correct", 3);
                 (EvPatient (NewAnalysis (TypeText "fever") true), 4) ])).
Proof.
  apply (proj1 (runs_keep_keys_and_session
                  Samples.toy_hash (fun _ => doc_sample) (fun _ => inl "rest")
                  [ (EvRegister Patient "alice" "correct" "correct" "" "", 1);
                    (EvPatientLogin "alice" "correct", 3);
                    (EvPatient (NewAnalysis (TypeText "fever") true), 4) ]
                  empty_db logged_out empty_store_keys I)).
Defined.

End SessionFacts.

(** ** A rejected doctor profile *)

Module OrphanFacts.

Lemma register_profile_error (h : string -> string) (db db' : DB)
  (u p c fn sp : string) :
  register h db Doctor u p c fn sp
  = (st_error "Error creating doctor profile", db') ->
  exists uid,
    find (fun r => (users_username r =? u)%string) (users db) = None
    /\ ~ In uid (map users_id (users db))
    /\ users db' = users db ++ [mkUser uid u (h p) "doctor"]
    /\ doctors db' = doctors db
    /\ has_profile db uid = true.
Proof.
  unfold register.
  destruct (negb (p =? c)%string); [discriminate |].
  destruct (String.length p <? 6); [discriminate |].
  destruct (create_user h db u p (role_name Doctor)) as [o db1] eqn:C.
  destruct o as [uid |]; [| discriminate].
  apply create_user_created in C as (F & I & U & D & _).
  assert (T : truthy (Some uid) = true) by now rewrite I.
  rewrite T. unfold create_doctor, insert_doctor.
  destruct (existsb (fun r => doctors_user_id r =? uid) (doctors db1)) eqn:E;
    [| discriminate].
  intros [= <-]. exists uid. unfold has_profile. rewrite <- D.
  repeat split; trivial. rewrite I. apply fresh_id_new.
Qed.

(** X22: When a doctor registration ends in "Error creating doctor profile",
    the account it stored still logs in through the doctor tab, and
    [get_doctor_id] resolves it to the doctors row that was there before the
    registration: the new account is served under that older profile. *)
Theorem rejected_profile_account_uses_older_profile :
  forall (hash_password : string -> string) (db db' : DB)
         (username password confirm full_name specialization : string),
    register hash_password db Doctor username password confirm
             full_name specialization
    = (st_error "Error creating doctor profile", db') ->
    exists uid older,
      ~ In uid (map users_id (users db))
      /\ In older (doctors db)
      /\ doctors_user_id older = uid
      /\ get_doctor_id db' uid = Some (doctors_id older)
      /\ doctors db' = doctors db
      /\ (forall s,
            login hash_password Doctor db' username password s
            = (st_success "Login successful!",
               mkSession (Some uid) (Some "doctor"))).
Proof.
  intros h db db' u p c fn sp R.
  apply register_profile_error in R as (uid & F & N & U & D & P).
  unfold has_profile in P. apply not_false_iff_true in P.
  destruct (find (fun r => doctors_user_id r =? uid) (doctors db))
    as [older |] eqn:Fo; [| now apply existsb_find_none in Fo].
  exists uid, older. apply find_some in Fo as Io. destruct Io as [Io Eo].
  apply Nat.eqb_eq in Eo.
  split; [exact N |]. split; [exact Io |]. split; [exact Eo |].
  split; [unfold get_doctor_id; now rewrite D, Fo |]. split; [exact D |].
  intros s. unfold login, verify_user. rewrite U.
  pose proof (find_new_user (users db) (mkUser uid u (h p) "doctor") F) as Nw.
  simpl in Nw. rewrite Nw. simpl. now rewrite String.eqb_refl.
Qed.

Lemma rejected_profile_account_uses_older_profile_witness :
  exists uid older,
    ~ In uid (map users_id (users Samples.db_stale_profile))
    /\ In older (doctors Samples.db_stale_profile)
    /\ doctors_user_id older = uid
    /\ get_doctor_id
         (snd (register Samples.toy_hash Samples.db_stale_profile Doctor
                        "drcarol" "secret1" "secret1" "Carol" "ENT")) uid
       = Some (doctors_id older)
    /\ doctors (snd (register Samples.toy_hash Samples.db_stale_profile Doctor
                              "drcarol" "secret1" "secret1" "Carol" "ENT"))
       = doctors Samples.db_stale_profile
    /\ (forall s,
          login Samples.toy_hash Doctor
                (snd (register Samples.toy_hash Samples.db_stale_profile Doctor
                               "drcarol" "secret1" "secret1" "Carol" "ENT"))
                "drcarol" "secret1" s
          = (st_success "Login successful!",
             mkSession (Some uid) (Some "doctor"))).
Proof.
  exact (rejected_profile_account_uses_older_profile
           Samples.toy_hash Samples.db_stale_profile _
           "drcarol" "secret1" "secret1" "Carol" "ENT" eq_refl).
Defined.

End OrphanFacts.
